(** * Blumelein Server: order intake, persistence adapter and payment
    confirmation.

    A shallow embedding of [blumelein_server] (models/schemas.py,
    database/firestore_adapter.py, database/factory.py, routers/orders.py,
    routers/manage.py, routers/payments.py) and the properties of its
    order / payment contract.

    Conventions.
    - A Python [dict] with string keys is a [gmap string _]; a Firestore
      document is such a dict over the dynamically typed [Value]s below.
    - [datetime] values are integers (microseconds since the epoch).
    - A [UUID] is its 128-bit integer.
    - Handlers run in the monad [M]: explicit state passing over a [World]
      and Python exceptions as the [Raise] outcome.  A side effect performed
      before an exception is raised stays in the world.

    Main finding.  The [Order] model requires [buyer_email] and
    [buyer_phone], but neither [submit_order] nor the adapter's
    [_order_to_dict] and [_dict_to_order] handle them: [Order(...)] raises a
    [ValidationError] wherever the program builds an order.  Submitting an
    order, reading one, listing them, the admin status update and the
    payment intent on a stored order all end in an internal error.  The
    rejections and acknowledgements of the webhook, the admin key check and
    the monotonicity of the payment status hold; the payment-status update
    writes what it should, but nothing makes its timestamp later than the
    creation timestamp. *)

From Stdlib Require Import ZArith Ascii String Sorting.Sorted Sorting.Permutation.
From stdpp Require Import base option list strings gmap fin_maps.

Open Scope string_scope.
Open Scope Z_scope.

(** ** Enumerations (models/schemas.py) *)

Module BouquetSize.
Inductive t := SMALL | MEDIUM | LARGE.
Definition value (s : t) : string :=
  match s with SMALL => "S" | MEDIUM => "M" | LARGE => "L" end.
(** [BouquetSize(v)]: look a member up by its value. *)
Definition of_value (v : string) : option t :=
  if decide (v = "S") then Some SMALL
  else if decide (v = "M") then Some MEDIUM
  else if decide (v = "L") then Some LARGE
  else None.
End BouquetSize.

Module PaymentStatus.
Inductive t := INCOMPLETE | COMPLETED.
Definition value (s : t) : string :=
  match s with INCOMPLETE => "Incomplete" | COMPLETED => "Completed" end.
Definition of_value (v : string) : option t :=
  if decide (v = "Incomplete") then Some INCOMPLETE
  else if decide (v = "Completed") then Some COMPLETED
  else None.
Definition eqb (a b : t) : bool :=
  match a, b with
  | INCOMPLETE, INCOMPLETE | COMPLETED, COMPLETED => true
  | _, _ => false
  end.
End PaymentStatus.

Module OrderStatus.
Inductive t := NOT_STARTED | IN_PROGRESS | COMPLETED.
Definition value (s : t) : string :=
  match s with
  | NOT_STARTED => "Not Started"
  | IN_PROGRESS => "In Progress"
  | COMPLETED => "Completed"
  end.
Definition of_value (v : string) : option t :=
  if decide (v = "Not Started") then Some NOT_STARTED
  else if decide (v = "In Progress") then Some IN_PROGRESS
  else if decide (v = "Completed") then Some COMPLETED
  else None.
End OrderStatus.

(** ** Python values that reach a Firestore document *)

#[local] Unset Elimination Schemes.
Inductive Value :=
  | VNone
  | VStr (s : string)
  | VTime (t : Z)
  | VList (l : list Value)
  | VDict (d : gmap string Value).
#[local] Set Elimination Schemes.

Abbreviation Doc := (gmap string Value).

(** ** Models (models/schemas.py) *)

Definition UUID : Type := N.
Definition datetime : Type := Z.

Record ItemCreate := {
  ic_main_colours : list string;
  ic_size : BouquetSize.t;
  ic_comments : option string;
}.

Record Item := {
  main_colours : list string;
  size : BouquetSize.t;
  comments : option string;
  item_id : UUID;
  item_created_at : datetime;
}.

Record OrderCreate := {
  oc_items : list ItemCreate;
  oc_buyer_full_name : string;
  oc_buyer_email : string;
  oc_buyer_phone : string;
  oc_delivery_address : string;
}.

Record Order := {
  order_id : UUID;
  items : list Item;
  buyer_full_name : string;
  buyer_email : string;
  buyer_phone : string;
  delivery_address : string;
  payment_status : PaymentStatus.t;
  order_status : OrderStatus.t;
  created_at : datetime;
  updated_at : datetime;
}.

(** [OrderResponse] has the fields of [Order]: building one from the dump
    of an [Order] copies them. *)
Definition OrderResponse : Type := Order.

Record PaymentIntent := {
  pi_order_id : UUID;
  pi_amount : Z;
  pi_currency : string;
}.

Record PaymentIntentResponse := {
  client_secret : string;
  payment_intent_id : string;
  amount : Z;
  currency : string;
}.

Record OrderStatusUpdate := { su_order_status : OrderStatus.t }.

(** *** Request validation: the [Field] constraints of the request models *)

Definition len_between (lo hi : nat) (s : string) : bool :=
  (lo <=? String.length s)%nat && (String.length s <=? hi)%nat.

Definition comments_ok (c : option string) : bool :=
  match c with None => true | Some s => (String.length s <=? 500)%nat end.

Definition ItemCreate_valid (i : ItemCreate) : bool :=
  (1 <=? length (ic_main_colours i))%nat && comments_ok (ic_comments i).

Definition OrderCreate_valid (o : OrderCreate) : bool :=
  (1 <=? length (oc_items o))%nat
  && forallb ItemCreate_valid (oc_items o)
  && len_between 1 100 (oc_buyer_full_name o)
  && len_between 3 254 (oc_buyer_email o)
  && len_between 1 20 (oc_buyer_phone o)
  && len_between 1 300 (oc_delivery_address o).

Definition PaymentIntent_valid (p : PaymentIntent) : bool := 0 <? pi_amount p.

(** ** Exceptions *)

(** The [type] of one line of a pydantic [ValidationError]. *)
Inductive ErrorType :=
  | missing | string_type | list_type | too_short | too_long
  | enum | datetime_type.

Definition FieldError : Type := string * ErrorType.

Inductive Exn :=
  | HTTPException (status_code : Z) (detail : string)
  | ValidationError (model : string) (errors : list FieldError)
  | KeyError (key : string)
  | ValueError (msg : string)
  | TypeError (msg : string)
  | AttributeError (msg : string)
  | RuntimeError (msg : string)
  | StripeError (msg : string)
  | SignatureVerificationError (msg : string)
  | NotFound (msg : string).

(** [except ValueError]: pydantic's [ValidationError] derives from
    [ValueError]; [KeyError], [TypeError] and the others do not. *)
Definition is_ValueError (e : Exn) : bool :=
  match e with
  | ValueError _ | ValidationError _ _ => true
  | _ => false
  end.

Definition HTTP_400_BAD_REQUEST : Z := 400.
Definition HTTP_403_FORBIDDEN : Z := 403.
Definition HTTP_404_NOT_FOUND : Z := 404.
Definition HTTP_500_INTERNAL_SERVER_ERROR : Z := 500.
Definition HTTP_200_OK : Z := 200.
Definition HTTP_201_CREATED : Z := 201.
Definition HTTP_422_UNPROCESSABLE_ENTITY : Z := 422.

(** ** External collaborators *)

(** config.py: the settings the handlers read. *)
Record Settings := {
  database_type : string;
  google_cloud_project : string;
  stripe_api_key : string;
  stripe_webhook_secret : string;
  admin_api_key : string;
}.

(** What [stripe.PaymentIntent.create] returns. *)
Record StripeIntent := {
  intent_client_secret : string;
  intent_id : string;
  intent_amount : Z;
  intent_currency : string;
}.

(** A verified Stripe event: [event["type"]] and the [metadata] of
    [event["data"]["object"]] ([None] when the object carries no
    ["metadata"] key).  Stripe metadata maps strings to strings. *)
Record StripeEvent := {
  event_type : string;
  event_metadata : option (gmap string string);
}.

Inductive ConstructEvent :=
  | EventOk (ev : StripeEvent)
  | EventValueError
  | EventSignatureVerificationError.

(** Everything the program obtains from outside: the uuid library, the
    entropy behind [uuid4], the wall clock, the environment variables and the
    payment processor.  Nothing is assumed about them: the clock need not
    advance, draws need not differ. *)
Record Environment := {
  uuid_str : UUID -> string;                     (* str(u) *)
  UUID_parse : string -> option UUID;            (* UUID(s); None: ValueError *)
  uuid4 : nat -> UUID;                           (* the k-th draw *)
  utcnow : nat -> datetime;                      (* the k-th clock reading *)
  parse_datetime : string -> option datetime;    (* pydantic, lax mode *)
  settings : Settings;
  (* k-th call, amount, currency, metadata order_id *)
  stripe_PaymentIntent_create :
    nat -> Z -> string -> string -> string + StripeIntent;
  (* payload, signature header, secret *)
  stripe_Webhook_construct_event :
    string -> string -> string -> ConstructEvent;
}.

(** ** The world *)

Record AsyncClient := { client_project : option string }.

Record FirestoreAdapter := {
  project_id : option string;
  db : option AsyncClient;
  orders_collection : string;
}.

(** One call on the Firestore client. *)
Inductive DbOp :=
  | DocGet (doc_id : string)
  | DocSet (doc_id : string)
  | DocUpdate (doc_id : string)
  | Stream.

Record StripeCall := {
  call_amount : Z;
  call_currency : string;
  call_order_id : string;
}.

Record World := {
  _db_adapter : option FirestoreAdapter;   (* factory._db_adapter *)
  firestore : gmap string Doc;             (* the remote orders collection *)
  draws : nat;                             (* uuid4 calls so far *)
  ticks : nat;                             (* utcnow calls so far *)
  stripe_calls : list StripeCall;          (* PaymentIntent.create calls *)
  db_trace : list DbOp;                    (* Firestore calls, oldest first *)
  stdout : list string;                    (* printed lines, oldest first *)
}.

Definition set_db_adapter (a : option FirestoreAdapter) (w : World) : World :=
  {| _db_adapter := a; firestore := firestore w; draws := draws w;
     ticks := ticks w; stripe_calls := stripe_calls w;
     db_trace := db_trace w; stdout := stdout w |}.

Definition db_access (op : DbOp) (fs : gmap string Doc) (w : World) : World :=
  {| _db_adapter := _db_adapter w; firestore := fs; draws := draws w;
     ticks := ticks w; stripe_calls := stripe_calls w;
     db_trace := db_trace w ++ [op]; stdout := stdout w |}.

Definition next_draw (w : World) : World :=
  {| _db_adapter := _db_adapter w; firestore := firestore w;
     draws := S (draws w); ticks := ticks w; stripe_calls := stripe_calls w;
     db_trace := db_trace w; stdout := stdout w |}.

Definition next_tick (w : World) : World :=
  {| _db_adapter := _db_adapter w; firestore := firestore w;
     draws := draws w; ticks := S (ticks w); stripe_calls := stripe_calls w;
     db_trace := db_trace w; stdout := stdout w |}.

Definition add_stripe_call (c : StripeCall) (w : World) : World :=
  {| _db_adapter := _db_adapter w; firestore := firestore w;
     draws := draws w; ticks := ticks w;
     stripe_calls := stripe_calls w ++ [c];
     db_trace := db_trace w; stdout := stdout w |}.

Definition add_stdout (line : string) (w : World) : World :=
  {| _db_adapter := _db_adapter w; firestore := firestore w;
     draws := draws w; ticks := ticks w; stripe_calls := stripe_calls w;
     db_trace := db_trace w; stdout := stdout w ++ [line] |}.

(** ** The monad of handlers *)

Inductive Res (A : Type) :=
  | Ok (a : A)
  | Raise (e : Exn).
Arguments Ok {A} a.
Arguments Raise {A} e.

Definition M (A : Type) : Type := World -> Res A * World.

Definition ret {A} (a : A) : M A := fun w => (Ok a, w).
Definition raise {A} (e : Exn) : M A := fun w => (Raise e, w).
Definition bind {A B} (m : M A) (k : A -> M B) : M B :=
  fun w =>
    match m w with
    | (Ok a, w') => k a w'
    | (Raise e, w') => (Raise e, w')
    end.

(** [try: m except C1: h1 except C2: h2 ...]: each clause is the test for
    its exception class and its handler; the first clause that matches
    handles the exception, and an exception no clause matches propagates. *)
Definition Clause (A : Type) : Type := (Exn -> bool) * (Exn -> M A).

Fixpoint find_clause {A} (e : Exn) (clauses : list (Clause A))
    : option (Exn -> M A) :=
  match clauses with
  | [] => None
  | (test, h) :: rest => if test e then Some h else find_clause e rest
  end.

Definition try_except {A} (m : M A) (clauses : list (Clause A)) : M A :=
  fun w =>
    match m w with
    | (Ok a, w') => (Ok a, w')
    | (Raise e, w') =>
        match find_clause e clauses with
        | Some h => h e w'
        | None => (Raise e, w')
        end
    end.

Notation "'let*' x ':=' m 'in' k" := (bind m (fun x => k))
  (at level 10, x name, m at level 100, k at level 200, only parsing).

(** A list comprehension whose element expression may raise. *)
Fixpoint for_each {A B} (f : A -> M B) (l : list A) : M (list B) :=
  match l with
  | [] => ret []
  | x :: l' =>
      let* y := f x in
      let* ys := for_each f l' in
      ret (y :: ys)
  end.

Section Program.

Context (E : Environment).

(** ** Primitive effects *)

Definition uuid4_call : M UUID :=
  fun w => (Ok (uuid4 E (draws w)), next_draw w).

Definition utcnow_call : M datetime :=
  fun w => (Ok (utcnow E (ticks w)), next_tick w).

Definition print (line : string) : M unit :=
  fun w => (Ok tt, add_stdout line w).

(** [UUID(s)]: [ValueError] on a badly formed string. *)
Definition UUID_of_str (s : string) : M UUID :=
  match UUID_parse E s with
  | Some u => ret u
  | None => raise (ValueError "badly formed hexadecimal UUID string")
  end.

(** *** Firestore document references

    [doc_ref.get()], [doc_ref.set(d)], [doc_ref.update(fields)] and
    [collection.stream()] on the orders collection.  [set] replaces the
    document; [update] overwrites the given fields of an existing document
    and fails on a missing one; [stream] yields every document, in the
    order of the store. *)

Definition doc_get (doc_id : string) : M (option Doc) :=
  fun w => (Ok (firestore w !! doc_id), db_access (DocGet doc_id) (firestore w) w).

Definition doc_set (doc_id : string) (d : Doc) : M unit :=
  fun w => (Ok tt, db_access (DocSet doc_id) (<[doc_id := d]> (firestore w)) w).

Definition doc_update (doc_id : string) (fields : Doc) : M unit :=
  fun w =>
    match firestore w !! doc_id with
    | Some d =>
        (Ok tt,
         db_access (DocUpdate doc_id) (<[doc_id := fields ∪ d]> (firestore w)) w)
    | None =>
        (Raise (NotFound doc_id), db_access (DocUpdate doc_id) (firestore w) w)
    end.

Definition collection_stream : M (list Doc) :=
  fun w => (Ok (map_to_list (firestore w)).*2, db_access Stream (firestore w) w).

(** [stripe.PaymentIntent.create(amount=, currency=, metadata={"order_id": ..})] *)
Definition PaymentIntent_create (amt : Z) (cur oid : string) : M StripeIntent :=
  fun w =>
    let w' := add_stripe_call
      {| call_amount := amt; call_currency := cur; call_order_id := oid |} w in
    match stripe_PaymentIntent_create E (length (stripe_calls w)) amt cur oid with
    | inl msg => (Raise (StripeError msg), w')
    | inr intent => (Ok intent, w')
    end.

(** [stripe.Webhook.construct_event(payload, sig_header, secret)] *)
Definition Webhook_construct_event (payload sig secret : string) : M StripeEvent :=
  match stripe_Webhook_construct_event E payload sig secret with
  | EventOk ev => ret ev
  | EventValueError => raise (ValueError "Invalid payload")
  | EventSignatureVerificationError =>
      raise (SignatureVerificationError "No signatures found")
  end.

(** ** Python operations on dynamically typed values *)

(** [d[key]] on a dict. *)
Definition getitem (d : Doc) (key : string) : M Value :=
  match d !! key with
  | Some v => ret v
  | None => raise (KeyError key)
  end.

(** [v[key]] on any value. *)
Definition subscript (v : Value) (key : string) : M Value :=
  match v with
  | VDict d => getitem d key
  | _ => raise (TypeError "indices must be integers or the object is not subscriptable")
  end.

(** [v.get(key)] on any value. *)
Definition get_or_None (v : Value) (key : string) : M Value :=
  match v with
  | VDict d => ret (default VNone (d !! key))
  | _ => raise (AttributeError "object has no attribute 'get'")
  end.

(** [for x in v]: a list yields its elements, a string its characters, a
    dict its keys; the other values are not iterable. *)
Definition iterate (v : Value) : M (list Value) :=
  match v with
  | VList l => ret l
  | VStr s => ret ((λ c, VStr (String c EmptyString)) <$> String.list_ascii_of_string s)
  | VDict d => ret (VStr <$> (map_to_list d).*1)
  | VNone | VTime _ => raise (TypeError "object is not iterable")
  end.

(** [UUID(v)]: a string is parsed; another value has no [replace]. *)
Definition UUID_of (v : Value) : M UUID :=
  match v with
  | VStr s => UUID_of_str s
  | _ => raise (AttributeError "object has no attribute 'replace'")
  end.

(** [PaymentStatus(v)] and [OrderStatus(v)]: [ValueError] unless [v] is the
    value of a member. *)
Definition PaymentStatus_of (v : Value) : M PaymentStatus.t :=
  match v with
  | VStr s =>
      match PaymentStatus.of_value s with
      | Some p => ret p
      | None => raise (ValueError "not a valid PaymentStatus")
      end
  | _ => raise (ValueError "not a valid PaymentStatus")
  end.

Definition OrderStatus_of (v : Value) : M OrderStatus.t :=
  match v with
  | VStr s =>
      match OrderStatus.of_value s with
      | Some p => ret p
      | None => raise (ValueError "not a valid OrderStatus")
      end
  | _ => raise (ValueError "not a valid OrderStatus")
  end.

(** ** Model construction (pydantic)

    [Item(...)] and [Order(...)] take keyword arguments: a field that is not
    passed is [None] here.  Every field is validated, in declaration order;
    a field that is not passed takes its default or calls its default
    factory, and a required field ([Field(...)]) that is not passed is an
    error of type [missing].  All the errors are collected into one
    [ValidationError]. *)

Definition Checked (A : Type) : Type := list FieldError + A.

Definition errors_of {A} (c : Checked A) : list FieldError :=
  match c with inl es => es | inr _ => [] end.

Definition value_of {A} (c : Checked A) : option A :=
  match c with inl _ => None | inr a => Some a end.

(** A required [str] field. *)
Definition required_str (name : string) (arg : option Value) : Checked string :=
  match arg with
  | None => inl [(name, missing)]
  | Some (VStr s) => inr s
  | Some _ => inl [(name, string_type)]
  end.

(** A required field that receives an already built object. *)
Definition required_obj {A} (name : string) (arg : option A) : Checked A :=
  match arg with
  | None => inl [(name, missing)]
  | Some a => inr a
  end.

Fixpoint all_str (l : list Value) : option (list string) :=
  match l with
  | [] => Some []
  | VStr s :: l' => cons s <$> all_str l'
  | _ :: _ => None
  end.

(** [main_colours: list[str] = Field(..., min_length=1)] *)
Definition check_main_colours (arg : option Value) : Checked (list string) :=
  match arg with
  | None => inl [("main_colours", missing)]
  | Some (VList l) =>
      match all_str l with
      | None => inl [("main_colours", string_type)]
      | Some [] => inl [("main_colours", too_short)]
      | Some cs => inr cs
      end
  | Some _ => inl [("main_colours", list_type)]
  end.

(** [size: BouquetSize = Field(...)] *)
Definition check_size (arg : option Value) : Checked BouquetSize.t :=
  match arg with
  | None => inl [("size", missing)]
  | Some (VStr s) =>
      match BouquetSize.of_value s with
      | Some b => inr b
      | None => inl [("size", enum)]
      end
  | Some _ => inl [("size", enum)]
  end.

(** [comments: Optional[str] = Field(None, max_length=500)] *)
Definition check_comments (arg : option Value) : Checked (option string) :=
  match arg with
  | None | Some VNone => inr None
  | Some (VStr s) =>
      if (String.length s <=? 500)%nat then inr (Some s)
      else inl [("comments", too_long)]
  | Some _ => inl [("comments", string_type)]
  end.

(** A [datetime] value that was passed. *)
Definition check_datetime (name : string) (v : Value) : Checked datetime :=
  match v with
  | VTime t => inr t
  | VStr s =>
      match parse_datetime E s with
      | Some t => inr t
      | None => inl [(name, datetime_type)]
      end
  | _ => inl [(name, datetime_type)]
  end.

(** [Field(default_factory=uuid4)] *)
Definition uuid_field (arg : option UUID) : M UUID :=
  match arg with
  | Some u => ret u
  | None => uuid4_call
  end.

(** [Field(default_factory=datetime.utcnow)] *)
Definition datetime_field (name : string) (arg : option Value)
    : M (Checked datetime) :=
  match arg with
  | Some v => ret (check_datetime name v)
  | None => let* t := utcnow_call in ret (inr t)
  end.

Record ItemArgs := {
  arg_main_colours : option Value;
  arg_size : option Value;
  arg_comments : option Value;
  arg_item_id : option UUID;
  arg_item_created_at : option Value;
}.

(** [Item(main_colours=, size=, comments=, item_id=, created_at=)] *)
Definition Item_init (a : ItemArgs) : M Item :=
  let c_colours := check_main_colours (arg_main_colours a) in
  let c_size := check_size (arg_size a) in
  let c_comments := check_comments (arg_comments a) in
  let* iid := uuid_field (arg_item_id a) in
  let* c_created := datetime_field "created_at" (arg_item_created_at a) in
  let errors :=
    (errors_of c_colours ++ errors_of c_size ++ errors_of c_comments
     ++ errors_of c_created)%list in
  match errors, value_of c_colours, value_of c_size, value_of c_comments,
        value_of c_created with
  | [], Some cs, Some sz, Some cm, Some t =>
      ret {| main_colours := cs; size := sz; comments := cm;
             item_id := iid; item_created_at := t |}
  | _, _, _, _, _ => raise (ValidationError "Item" errors)
  end.

Record OrderArgs := {
  arg_order_id : option UUID;
  arg_items : option (list Item);
  arg_buyer_full_name : option Value;
  arg_buyer_email : option Value;
  arg_buyer_phone : option Value;
  arg_delivery_address : option Value;
  arg_payment_status : option PaymentStatus.t;
  arg_order_status : option OrderStatus.t;
  arg_created_at : option Value;
  arg_updated_at : option Value;
}.

(** [Order(order_id=, items=, buyer_full_name=, buyer_email=, buyer_phone=,
    delivery_address=, payment_status=, order_status=, created_at=,
    updated_at=)].  [items] and the four buyer and delivery strings are
    required; the statuses default to [INCOMPLETE] and [NOT_STARTED]. *)
Definition Order_init (a : OrderArgs) : M Order :=
  let* oid := uuid_field (arg_order_id a) in
  let c_items := required_obj "items" (arg_items a) in
  let c_name := required_str "buyer_full_name" (arg_buyer_full_name a) in
  let c_email := required_str "buyer_email" (arg_buyer_email a) in
  let c_phone := required_str "buyer_phone" (arg_buyer_phone a) in
  let c_address := required_str "delivery_address" (arg_delivery_address a) in
  let pay := default PaymentStatus.INCOMPLETE (arg_payment_status a) in
  let ost := default OrderStatus.NOT_STARTED (arg_order_status a) in
  let* c_created := datetime_field "created_at" (arg_created_at a) in
  let* c_updated := datetime_field "updated_at" (arg_updated_at a) in
  let errors :=
    (errors_of c_items ++ errors_of c_name ++ errors_of c_email
     ++ errors_of c_phone ++ errors_of c_address ++ errors_of c_created
     ++ errors_of c_updated)%list in
  match errors,
        value_of c_items, value_of c_name, value_of c_email, value_of c_phone,
        value_of c_address, value_of c_created, value_of c_updated with
  | [], Some its, Some name, Some email, Some phone, Some addr,
    Some tc, Some tu =>
      ret {| order_id := oid; items := its; buyer_full_name := name;
             buyer_email := email; buyer_phone := phone;
             delivery_address := addr; payment_status := pay;
             order_status := ost; created_at := tc; updated_at := tu |}
  | _, _, _, _, _, _, _, _ => raise (ValidationError "Order" errors)
  end.

(** [item.model_dump()] of an [ItemCreate], as keyword arguments. *)
Definition ItemCreate_model_dump (i : ItemCreate) : ItemArgs :=
  {| arg_main_colours := Some (VList (VStr <$> ic_main_colours i));
     arg_size := Some (VStr (BouquetSize.value (ic_size i)));
     arg_comments := Some (from_option VStr VNone (ic_comments i));
     arg_item_id := None;
     arg_item_created_at := None |}.

(** ** The Firestore adapter (database/firestore_adapter.py) *)

Definition FirestoreAdapter_new (project : option string) : FirestoreAdapter :=
  {| project_id := project; db := None; orders_collection := "orders" |}.

(** [if not self.db: raise RuntimeError(...)] *)
Definition require_db (self : FirestoreAdapter) : M AsyncClient :=
  match db self with
  | Some c => ret c
  | None => raise (RuntimeError "Database not initialized. Call initialize() first.")
  end.

Definition item_to_dict (item : Item) : Value :=
  VDict (list_to_map [
    ("item_id", VStr (uuid_str E (item_id item)));
    ("main_colours", VList (VStr <$> main_colours item));
    ("size", VStr (BouquetSize.value (size item)));
    ("comments", from_option VStr VNone (comments item));
    ("created_at", VTime (item_created_at item))
  ]).

Definition _order_to_dict (order : Order) : Doc :=
  list_to_map [
    ("order_id", VStr (uuid_str E (order_id order)));
    ("items", VList (item_to_dict <$> items order));
    ("buyer_full_name", VStr (buyer_full_name order));
    ("delivery_address", VStr (delivery_address order));
    ("payment_status", VStr (PaymentStatus.value (payment_status order)));
    ("order_status", VStr (OrderStatus.value (order_status order)));
    ("created_at", VTime (created_at order));
    ("updated_at", VTime (updated_at order))
  ].

Definition item_of_dict (item : Value) : M Item :=
  let* v_id := subscript item "item_id" in
  let* iid := UUID_of v_id in
  let* v_colours := subscript item "main_colours" in
  let* v_size := subscript item "size" in
  let* v_comments := get_or_None item "comments" in
  let* v_created := subscript item "created_at" in
  Item_init {| arg_main_colours := Some v_colours;
               arg_size := Some v_size;
               arg_comments := Some v_comments;
               arg_item_id := Some iid;
               arg_item_created_at := Some v_created |}.

Definition _dict_to_order (data : Doc) : M Order :=
  let* v_items := getitem data "items" in
  let* elements := iterate v_items in
  let* its := for_each item_of_dict elements in
  let* v_id := getitem data "order_id" in
  let* oid := UUID_of v_id in
  let* v_name := getitem data "buyer_full_name" in
  let* v_address := getitem data "delivery_address" in
  let* v_pay := getitem data "payment_status" in
  let* pay := PaymentStatus_of v_pay in
  let* v_status := getitem data "order_status" in
  let* ost := OrderStatus_of v_status in
  let* v_created := getitem data "created_at" in
  let* v_updated := getitem data "updated_at" in
  Order_init {| arg_order_id := Some oid;
                arg_items := Some its;
                arg_buyer_full_name := Some v_name;
                arg_buyer_email := None;
                arg_buyer_phone := None;
                arg_delivery_address := Some v_address;
                arg_payment_status := Some pay;
                arg_order_status := Some ost;
                arg_created_at := Some v_created;
                arg_updated_at := Some v_updated |}.

Definition create_order (self : FirestoreAdapter) (order : Order) : M Order :=
  let* _ := require_db self in
  let order_dict := _order_to_dict order in
  let* _ := doc_set (uuid_str E (order_id order)) order_dict in
  ret order.

Definition get_order (self : FirestoreAdapter) (oid : UUID) : M (option Order) :=
  let* _ := require_db self in
  let* doc := doc_get (uuid_str E oid) in
  match doc with
  | None => ret None
  | Some data => let* o := _dict_to_order data in ret (Some o)
  end.

(** [orders.sort(key=lambda x: x.created_at, reverse=True)]: Python's sort
    is stable, also with [reverse=True]: orders with equal keys keep the
    order in which they were appended. *)
Fixpoint insert_newest_first (o : Order) (l : list Order) : list Order :=
  match l with
  | [] => [o]
  | x :: l' =>
      if created_at x <=? created_at o then o :: x :: l'
      else x :: insert_newest_first o l'
  end.

Definition sort_newest_first (l : list Order) : list Order :=
  foldr insert_newest_first [] l.

Definition get_all_orders (self : FirestoreAdapter) : M (list Order) :=
  let* _ := require_db self in
  let* docs := collection_stream in
  let* orders := for_each _dict_to_order docs in
  ret (sort_newest_first orders).

(** The document read back after [update]; [to_dict()] of a document that
    no longer exists is [None], which [_dict_to_order] cannot subscript. *)
Definition read_back (doc_id : string) : M (option Order) :=
  let* updated_doc := doc_get doc_id in
  match updated_doc with
  | Some data => let* o := _dict_to_order data in ret (Some o)
  | None => raise (TypeError "'NoneType' object is not subscriptable")
  end.

(** The fields [update_order_payment_status] passes to [update]. *)
Definition payment_fields (status : PaymentStatus.t) (now : datetime) : Doc :=
  list_to_map [("payment_status", VStr (PaymentStatus.value status));
               ("updated_at", VTime now)].

(** The fields [update_order_status] passes to [update]. *)
Definition status_fields (status : OrderStatus.t) (now : datetime) : Doc :=
  list_to_map [("order_status", VStr (OrderStatus.value status));
               ("updated_at", VTime now)].

Definition update_order_payment_status (self : FirestoreAdapter) (oid : UUID)
    (status : PaymentStatus.t) : M (option Order) :=
  let* _ := require_db self in
  let doc_id := uuid_str E oid in
  let* doc := doc_get doc_id in
  match doc with
  | None => ret None
  | Some _ =>
      let* now := utcnow_call in
      let* _ := doc_update doc_id (payment_fields status now) in
      read_back doc_id
  end.

Definition update_order_status (self : FirestoreAdapter) (oid : UUID)
    (status : OrderStatus.t) : M (option Order) :=
  let* _ := require_db self in
  let doc_id := uuid_str E oid in
  let* doc := doc_get doc_id in
  match doc with
  | None => ret None
  | Some _ =>
      let* now := utcnow_call in
      let* _ := doc_update doc_id (status_fields status now) in
      read_back doc_id
  end.

(** ** The adapter factory (database/factory.py) *)

Definition get_database_adapter : M FirestoreAdapter :=
  fun w =>
    match _db_adapter w with
    | Some a => (Ok a, w)
    | None =>
        (Raise (RuntimeError
                  "Database not initialized. Call initialize_database() first."), w)
    end.

(** [FirestoreAdapter.initialize]: the adapter gets its client. *)
Definition initialize (self : FirestoreAdapter) : FirestoreAdapter :=
  {| project_id := project_id self;
     db := Some {| client_project := project_id self |};
     orders_collection := orders_collection self |}.

(** [initialize_database]: builds the adapter for the configured database
    type, stores it in the global and runs its [initialize()].  Another
    database type raises and leaves the global as it was.  (The start-up
    messages are not recorded in [stdout].) *)
Definition initialize_database : M FirestoreAdapter :=
  if decide (database_type (settings E) = "firestore") then
    let project :=
      if decide (google_cloud_project (settings E) = "") then None
      else Some (google_cloud_project (settings E)) in
    let a := initialize (FirestoreAdapter_new project) in
    fun w => (Ok a, set_db_adapter (Some a) w)
  else
    fun w =>
      (Raise (ValueError ("Unknown database type: " ++ database_type (settings E))),
       w).


(** ** Routers *)

Definition is_empty (s : string) : bool :=
  match s with EmptyString => true | String _ _ => false end.

Definition order_not_found (oid : UUID) : Exn :=
  HTTPException HTTP_404_NOT_FOUND
    ("Order with ID " ++ uuid_str E oid ++ " not found").

(** *** routers/orders.py *)

Definition submit_order (order_data : OrderCreate) : M OrderResponse :=
  let* its :=
    for_each (fun item => Item_init (ItemCreate_model_dump item))
             (oc_items order_data) in
  let* order :=
    Order_init {| arg_order_id := None;
                  arg_items := Some its;
                  arg_buyer_full_name := Some (VStr (oc_buyer_full_name order_data));
                  arg_buyer_email := None;
                  arg_buyer_phone := None;
                  arg_delivery_address := Some (VStr (oc_delivery_address order_data));
                  arg_payment_status := None;
                  arg_order_status := None;
                  arg_created_at := None;
                  arg_updated_at := None |} in
  let* db := get_database_adapter in
  let* created_order := create_order db order in
  ret created_order.

Definition get_order_by_id (oid : UUID) : M OrderResponse :=
  let* db := get_database_adapter in
  let* order := get_order db oid in
  match order with
  | None => raise (order_not_found oid)
  | Some o => ret o
  end.

(** *** routers/manage.py *)

(** Modelled from the spec: the framework's
    [APIKeyHeader(name="X-API-Key", auto_error=True)] is not part of the
    sources.  By the specification, absence of the token fails with a
    forbidden error before any service logic executes: a request without
    the header (or with an empty one) is rejected before the dependency
    runs. *)
Definition api_key_header (x_api_key : option string) : M string :=
  match x_api_key with
  | None => raise (HTTPException HTTP_403_FORBIDDEN "Not authenticated")
  | Some k =>
      if is_empty k
      then raise (HTTPException HTTP_403_FORBIDDEN "Not authenticated")
      else ret k
  end.

Definition verify_admin_key (x_api_key : option string) : M string :=
  let* api_key := api_key_header x_api_key in
  if decide (api_key ≠ admin_api_key (settings E))
  then raise (HTTPException HTTP_403_FORBIDDEN "Invalid API key")
  else ret api_key.

(** [dependencies=[Depends(verify_admin_key)]]: the dependency runs before
    the endpoint; the endpoint runs only if it returns. *)
Definition with_dependency {A B} (dep : M A) (endpoint : M B) : M B :=
  let* _ := dep in endpoint.

Definition list_all_orders : M (list OrderResponse) :=
  let* db := get_database_adapter in
  let* orders := get_all_orders db in
  ret orders.

Definition update_order_processing_status (oid : UUID)
    (status_update : OrderStatusUpdate) : M OrderResponse :=
  let* db := get_database_adapter in
  let* order := get_order db oid in
  match order with
  | None => raise (order_not_found oid)
  | Some _ =>
      let* updated_order :=
        update_order_status db oid (su_order_status status_update) in
      match updated_order with
      | None =>
          raise (HTTPException HTTP_500_INTERNAL_SERVER_ERROR
                   "Failed to update order status")
      | Some o => ret o
      end
  end.

Definition get_order_details (oid : UUID) : M OrderResponse :=
  let* db := get_database_adapter in
  let* order := get_order db oid in
  match order with
  | None => raise (order_not_found oid)
  | Some o => ret o
  end.

(** *** routers/payments.py *)

Definition is_StripeError (e : Exn) : bool :=
  match e with
  | StripeError _ | SignatureVerificationError _ => true
  | _ => false
  end.

Definition is_SignatureVerificationError (e : Exn) : bool :=
  match e with
  | SignatureVerificationError _ => true
  | _ => false
  end.

Definition exn_str (e : Exn) : string :=
  match e with
  | HTTPException _ msg | KeyError msg | ValueError msg | TypeError msg
  | AttributeError msg | RuntimeError msg | StripeError msg
  | SignatureVerificationError msg | NotFound msg => msg
  | ValidationError model _ => "validation errors for " ++ model
  end.

Definition create_payment_intent (payment_data : PaymentIntent)
    : M PaymentIntentResponse :=
  let* db := get_database_adapter in
  let* order := get_order db (pi_order_id payment_data) in
  match order with
  | None => raise (order_not_found (pi_order_id payment_data))
  | Some o =>
      if PaymentStatus.eqb (payment_status o) PaymentStatus.COMPLETED
      then raise (HTTPException HTTP_400_BAD_REQUEST "Order has already been paid")
      else
        try_except
          (let* intent :=
             PaymentIntent_create (pi_amount payment_data)
               (pi_currency payment_data)
               (uuid_str E (pi_order_id payment_data)) in
           ret {| client_secret := intent_client_secret intent;
                  payment_intent_id := intent_id intent;
                  amount := intent_amount intent;
                  currency := intent_currency intent |})
          [(is_StripeError,
            fun e => raise (HTTPException HTTP_400_BAD_REQUEST
                              ("Stripe error: " ++ exn_str e)))]
  end.

(** The body of the [payment_intent.succeeded] branch, for a truthy
    [order_id_str]. *)
Definition mark_order_paid (order_id_str : string) : M unit :=
  try_except
    (let* oid := UUID_of_str order_id_str in
     let* db := get_database_adapter in
     let* updated_order :=
       update_order_payment_status db oid PaymentStatus.COMPLETED in
     match updated_order with
     | None =>
         print ("Warning: Order " ++ uuid_str E oid
                ++ " not found for payment update")
     | Some _ => ret tt
     end)
    [(is_ValueError,
      fun _ => print ("Warning: Invalid order_id in payment metadata: "
                      ++ order_id_str))].

(** [payment_intent.get("metadata", {}).get("order_id")] *)
Definition metadata_order_id (event : StripeEvent) : option string :=
  default ∅ (event_metadata event) !! "order_id".

Definition stripe_webhook (payload : string) (stripe_signature : option string)
    : M string :=
  match stripe_signature with
  | None => raise (HTTPException HTTP_400_BAD_REQUEST "Missing Stripe signature")
  | Some sig =>
      if is_empty sig
      then raise (HTTPException HTTP_400_BAD_REQUEST "Missing Stripe signature")
      else
        let* event :=
          try_except
            (Webhook_construct_event payload sig
               (stripe_webhook_secret (settings E)))
            [(is_ValueError,
              fun _ => raise (HTTPException HTTP_400_BAD_REQUEST "Invalid payload"));
             (is_SignatureVerificationError,
              fun _ => raise (HTTPException HTTP_400_BAD_REQUEST "Invalid signature"))] in
        let* _ :=
          if decide (event_type event = "payment_intent.succeeded") then
            match metadata_order_id event with
            | Some order_id_str =>
                if is_empty order_id_str then ret tt
                else mark_order_paid order_id_str
            | None => ret tt
            end
          else ret tt in
        ret "success"
  end.

(** ** The application (main.py and the framework's dispatch) *)

Inductive Body :=
  | OrderBody (o : OrderResponse)
  | OrderListBody (l : list OrderResponse)
  | PaymentIntentBody (r : PaymentIntentResponse)
  | StatusBody (status : string)
  | DetailBody (detail : string)
  | RequestValidationBody
  | InternalServerErrorBody.

Record Response := {
  response_status : Z;
  response_body : Body;
}.

Inductive Request :=
  | POST_orders (body : OrderCreate)
  | GET_orders_id (oid : UUID)
  | GET_manage_orders (x_api_key : option string)
  | PATCH_manage_orders_id_status (x_api_key : option string) (oid : UUID)
      (body : OrderStatusUpdate)
  | GET_manage_orders_id (x_api_key : option string) (oid : UUID)
  | POST_payments_create_payment_intent (body : PaymentIntent)
  | POST_payments_webhook (stripe_signature : option string) (payload : string)
  | GET_root
  | GET_health.

(** The framework's answer to what an endpoint does: its result with the
    route's status code, an [HTTPException] with its own status code and
    detail, any other exception as an internal server error. *)
Definition respond {A} (success : Z) (to_body : A -> Body) (endpoint : M A)
    : World -> Response * World :=
  fun w =>
    match endpoint w with
    | (Ok a, w') =>
        ({| response_status := success; response_body := to_body a |}, w')
    | (Raise (HTTPException code detail), w') =>
        ({| response_status := code; response_body := DetailBody detail |}, w')
    | (Raise _, w') =>
        ({| response_status := HTTP_500_INTERNAL_SERVER_ERROR;
            response_body := InternalServerErrorBody |}, w')
    end.

(** A request body that fails its model's constraints never reaches the
    endpoint. *)
Definition unprocessable : World -> Response * World :=
  fun w => ({| response_status := HTTP_422_UNPROCESSABLE_ENTITY;
               response_body := RequestValidationBody |}, w).

Definition handle (r : Request) : World -> Response * World :=
  match r with
  | POST_orders body =>
      if OrderCreate_valid body
      then respond HTTP_201_CREATED OrderBody (submit_order body)
      else unprocessable
  | GET_orders_id oid =>
      respond HTTP_200_OK OrderBody (get_order_by_id oid)
  | GET_manage_orders key =>
      respond HTTP_200_OK OrderListBody
        (with_dependency (verify_admin_key key) list_all_orders)
  | PATCH_manage_orders_id_status key oid body =>
      respond HTTP_200_OK OrderBody
        (with_dependency (verify_admin_key key)
           (update_order_processing_status oid body))
  | GET_manage_orders_id key oid =>
      respond HTTP_200_OK OrderBody
        (with_dependency (verify_admin_key key) (get_order_details oid))
  | POST_payments_create_payment_intent body =>
      if PaymentIntent_valid body
      then respond HTTP_201_CREATED PaymentIntentBody (create_payment_intent body)
      else unprocessable
  | POST_payments_webhook sig payload =>
      respond HTTP_200_OK StatusBody (stripe_webhook payload sig)
  | GET_root | GET_health =>
      respond HTTP_200_OK StatusBody (ret "healthy")
  end.

(** The requests of a run, one after the other. *)
Fixpoint serve (rs : list Request) (w : World) : list Response * World :=
  match rs with
  | [] => ([], w)
  | r :: rs' =>
      let '(resp, w1) := handle r w in
      let '(resps, w2) := serve rs' w1 in
      (resp :: resps, w2)
  end.

(** The adapter is ready: what [initialize_database] leaves behind, and
    what holds while the application serves requests. *)
Definition running (w : World) : Prop :=
  ∃ a c, _db_adapter w = Some a ∧ db a = Some c.

(** The payment status token stored for an order id. *)
Definition stored_payment_status (w : World) (oid : UUID) : option Value :=
  d ← firestore w !! uuid_str E oid; d !! "payment_status".

(** ** The cases the properties tell apart *)

(** Why a webhook request is rejected before its event is looked at. *)
Inductive WebhookRejection :=
  | MissingSignature
  | UnverifiablePayload
  | InvalidSignature.

Definition rejection_detail (r : WebhookRejection) : string :=
  match r with
  | MissingSignature => "Missing Stripe signature"
  | UnverifiablePayload => "Invalid payload"
  | InvalidSignature => "Invalid signature"
  end.

(** The case a webhook request falls in: no signature header (or an empty
    one), or what the processor's verification says about the payload and
    the signature. *)
Definition webhook_rejection (payload : string) (stripe_signature : option string)
    : option WebhookRejection :=
  match stripe_signature with
  | None => Some MissingSignature
  | Some sig =>
      if is_empty sig then Some MissingSignature
      else
        match stripe_Webhook_construct_event E payload sig
                (stripe_webhook_secret (settings E)) with
        | EventOk _ => None
        | EventValueError => Some UnverifiablePayload
        | EventSignatureVerificationError => Some InvalidSignature
        end
  end.

(** What the [order_id] metadata of an event refers to. *)
Inductive OrderReference :=
  | NoOrderId
  | MalformedOrderId (order_id_str : string)
  | OrderId (oid : UUID).

Definition order_reference (event : StripeEvent) : OrderReference :=
  match metadata_order_id event with
  | None => NoOrderId
  | Some s =>
      if is_empty s then NoOrderId
      else
        match UUID_parse E s with
        | None => MalformedOrderId s
        | Some oid => OrderId oid
        end
  end.

(** The token of a request to an admin-prefixed operation. *)
Definition admin_token (r : Request) : option (option string) :=
  match r with
  | GET_manage_orders key
  | PATCH_manage_orders_id_status key _ _
  | GET_manage_orders_id key _ => Some key
  | _ => None
  end.

End Program.

(** ** Predicates on computations and stores *)

(** [preserves I m]: running [m] keeps the invariant [I] of the world,
    whether it returns or raises. *)
Definition preserves (I : World -> Prop) {A} (m : M A) : Prop :=
  forall w, I w -> I (snd (m w)).

(** [fails m]: [m] raises from every world. *)
Definition fails {A} (m : M A) : Prop :=
  forall w, exists e, fst (m w) = Raise e.

(** An exception the framework turns into an internal server error. *)
Definition internal (e : Exn) : Prop :=
  match e with HTTPException _ _ => False | _ => True end.

(** [quiet m]: [m] leaves the world as it is, and what it raises is
    internal. *)
Definition quiet {A} (m : M A) : Prop :=
  forall w, snd (m w) = w /\ forall e, fst (m w) = Raise e -> internal e.

(** An invariant of the stored documents alone. *)
Definition of_store (P : gmap string Doc -> Prop) : World -> Prop :=
  fun w => P (firestore w).

(** The world after one Firestore read. *)
Definition after_read (op : DbOp) (w : World) : World :=
  db_access op (firestore w) w.

(** The constraints of [Item] on an item in memory. *)
Definition Item_ok (item : Item) : bool :=
  (1 <=? length (main_colours item))%nat && comments_ok (comments item).

(** The updated timestamp of a document is strictly later than its creation
    timestamp. *)
Definition updated_after_created (d : Doc) : Prop :=
  exists tc tu,
    d !! "created_at" = Some (VTime tc) /\ d !! "updated_at" = Some (VTime tu)
    /\ tc < tu.

Definition completed_token : Value :=
  VStr (PaymentStatus.value PaymentStatus.COMPLETED).

(** The document [d] stored under [doc_id] is still stored, and its payment
    status is what it was in [d] or has become Completed. *)
Definition advanced (doc_id : string) (d : Doc) (fs : gmap string Doc) : Prop :=
  exists d',
    fs !! doc_id = Some d'
    /\ (d' !! "payment_status" = d !! "payment_status"
        \/ d' !! "payment_status" = Some completed_token).

Definition newer_or_equal (a b : Order) : Prop := created_at b <= created_at a.

(** ** A concrete environment

    Used to run the program on explicit inputs: canonical UUID strings, a
    clock, a processor that accepts every intent, and a webhook verifier
    that takes the signature ["t=1,v1=good"] as valid, reads the payload as
    the [order_id] metadata of a [payment_intent.succeeded] event, and
    reports the signature ["t=1,v1=garbled"] as an unreadable payload. *)

Module Fixture.

Definition hex_digit (n : N) : ascii :=
  default "0"%char (String.list_ascii_of_string "0123456789abcdef" !! N.to_nat n).

Fixpoint hex_digits (k : nat) (n : N) (acc : string) : string :=
  match k with
  | O => acc
  | S k' => hex_digits k' (n / 16)%N (String (hex_digit (n mod 16)%N) acc)
  end.

(** [str(u)]: 8-4-4-4-12 lower-case hexadecimal digits. *)
Definition canonical (u : UUID) : string :=
  let h := hex_digits 32 u "" in
  substring 0 8 h ++ "-" ++ substring 8 4 h ++ "-" ++ substring 12 4 h
  ++ "-" ++ substring 16 4 h ++ "-" ++ substring 20 12 h.

Definition hex_value (c : ascii) : option N :=
  let n := N_of_ascii c in
  if ((48 <=? n) && (n <=? 57))%N then Some (n - 48)%N
  else if ((97 <=? n) && (n <=? 102))%N then Some (n - 87)%N
  else if ((65 <=? n) && (n <=? 70))%N then Some (n - 55)%N
  else None.

Fixpoint parse_hex (s : string) (acc : N) : option N :=
  match s with
  | EmptyString => Some acc
  | String c s' =>
      match hex_value c with
      | Some d => parse_hex s' (16 * acc + d)%N
      | None => None
      end
  end.

Fixpoint drop_hyphens (s : string) : string :=
  match s with
  | EmptyString => EmptyString
  | String c s' =>
      if Ascii.eqb c "-" then drop_hyphens s' else String c (drop_hyphens s')
  end.

(** [UUID(s)] on hyphenated or plain hexadecimal strings of 32 digits. *)
Definition parse (s : string) : option UUID :=
  let h := drop_hyphens s in
  if (String.length h =? 32)%nat then parse_hex h 0%N else None.

Definition config : Settings :=
  {| database_type := "firestore";
     google_cloud_project := "";
     stripe_api_key := "sk_test_key";
     stripe_webhook_secret := "whsec_key";
     admin_api_key := "admin-secret" |}.

Definition construct_event (payload sig secret : string) : ConstructEvent :=
  if decide (sig = "t=1,v1=good") then
    EventOk {| event_type := "payment_intent.succeeded";
               event_metadata := Some {[ "order_id" := payload ]} |}
  else if decide (sig = "t=1,v1=garbled") then EventValueError
  else EventSignatureVerificationError.

(** The clock reads [clock k] at its [k]-th reading. *)
Definition env (clock : nat -> datetime) : Environment :=
  {| uuid_str := canonical;
     UUID_parse := parse;
     uuid4 := fun k => N.of_nat (S k);
     utcnow := clock;
     parse_datetime := fun _ => None;
     settings := config;
     stripe_PaymentIntent_create := fun k amt cur oid =>
       inr {| intent_client_secret := "pi_secret"; intent_id := "pi_1";
              intent_amount := amt; intent_currency := cur |};
     stripe_Webhook_construct_event := construct_event |}.

(** A clock that advances by one at each reading. *)
Definition ticking : nat -> datetime := fun k => 2000 + Z.of_nat k.

(** A clock too coarse to tell two readings apart: it reads 1000. *)
Definition coarse : nat -> datetime := fun _ => 1000.

Definition client : AsyncClient := {| client_project := None |}.

(** The adapter after [initialize_database]. *)
Definition ready : FirestoreAdapter :=
  {| project_id := None; db := Some client; orders_collection := "orders" |}.

(** The world after start-up, with the given documents in the store. *)
Definition world (docs : gmap string Doc) : World :=
  {| _db_adapter := Some ready; firestore := docs; draws := 0%nat;
     ticks := 0%nat; stripe_calls := []; db_trace := []; stdout := [] |}.

(** The world before start-up. *)
Definition cold : World :=
  {| _db_adapter := None; firestore := ∅; draws := 0%nat;
     ticks := 0%nat; stripe_calls := []; db_trace := []; stdout := [] |}.

Definition bouquet : ItemCreate :=
  {| ic_main_colours := ["red"; "pink"]; ic_size := BouquetSize.MEDIUM;
     ic_comments := Some "Please include roses" |}.

Definition request : OrderCreate :=
  {| oc_items := [bouquet];
     oc_buyer_full_name := "Jane Smith";
     oc_buyer_email := "jane.smith@example.com";
     oc_buyer_phone := "+1-555-0123";
     oc_delivery_address := "123 Main St, New York, NY 10001" |}.

(** A well-formed order that was just created, at time 1000. *)
Definition new_order : Order :=
  {| order_id := 7%N;
     items := [ {| main_colours := ["red"; "pink"];
                   size := BouquetSize.MEDIUM;
                   comments := Some "Please include roses";
                   item_id := 8%N;
                   item_created_at := 1000 |} ];
     buyer_full_name := "Jane Smith";
     buyer_email := "jane.smith@example.com";
     buyer_phone := "+1-555-0123";
     delivery_address := "123 Main St, New York, NY 10001";
     payment_status := PaymentStatus.INCOMPLETE;
     order_status := OrderStatus.NOT_STARTED;
     created_at := 1000;
     updated_at := 1000 |}.

(** The same order, paid. *)
Definition paid_order : Order :=
  {| order_id := 7%N;
     items := [ {| main_colours := ["red"; "pink"];
                   size := BouquetSize.MEDIUM;
                   comments := Some "Please include roses";
                   item_id := 8%N;
                   item_created_at := 1000 |} ];
     buyer_full_name := "Jane Smith";
     buyer_email := "jane.smith@example.com";
     buyer_phone := "+1-555-0123";
     delivery_address := "123 Main St, New York, NY 10001";
     payment_status := PaymentStatus.COMPLETED;
     order_status := OrderStatus.NOT_STARTED;
     created_at := 1000;
     updated_at := 1000 |}.

(** The store that holds the document [create_order] writes for [o]. *)
Definition store_of (o : Order) : gmap string Doc :=
  {[ canonical (order_id o) := _order_to_dict (env ticking) o ]}.

End Fixture.

(** A run against a paid order: a new submission, an admin update that
    tries to reset the order, a payment intent, a second confirmation. *)
Definition paid_order_run : list Request :=
  [ POST_orders Fixture.request;
    PATCH_manage_orders_id_status (Some "admin-secret") 7%N
      {| su_order_status := OrderStatus.NOT_STARTED |};
    POST_payments_create_payment_intent
      {| pi_order_id := 7%N; pi_amount := 5000; pi_currency := "usd" |};
    POST_payments_webhook (Some "t=1,v1=good")
      "00000000-0000-0000-0000-000000000007";
    GET_manage_orders (Some "admin-secret") ].

(** ** The rest of the program and its vocabulary *)

(** What an adapter method raises before [initialize()]. *)
Definition not_ready : Exn :=
  RuntimeError "Database not initialized. Call initialize() first.".

(** What [get_database_adapter] raises before [initialize_database()]. *)
Definition not_initialized : Exn :=
  RuntimeError "Database not initialized. Call initialize_database() first.".

(** An order with another payment status and updated timestamp. *)
Definition with_payment_status (status : PaymentStatus.t) (now : datetime)
    (o : Order) : Order :=
  {| order_id := order_id o; items := items o;
     buyer_full_name := buyer_full_name o; buyer_email := buyer_email o;
     buyer_phone := buyer_phone o; delivery_address := delivery_address o;
     payment_status := status; order_status := order_status o;
     created_at := created_at o; updated_at := now |}.

(** An order with another order status and updated timestamp. *)
Definition with_order_status (status : OrderStatus.t) (now : datetime)
    (o : Order) : Order :=
  {| order_id := order_id o; items := items o;
     buyer_full_name := buyer_full_name o; buyer_email := buyer_email o;
     buyer_phone := buyer_phone o; delivery_address := delivery_address o;
     payment_status := payment_status o; order_status := status;
     created_at := created_at o; updated_at := now |}.

(** [UUID(str(u))] is [u] again. *)
Definition round_trips (E : Environment) (u : UUID) : bool :=
  match UUID_parse E (uuid_str E u) with
  | Some u' => N.eqb u' u
  | None => false
  end.

(** The ids of an order and of its items survive [str] and [UUID]. *)
Definition ids_round_trip (E : Environment) (o : Order) : bool :=
  round_trips E (order_id o)
  && forallb (fun item => round_trips E (item_id item)) (items o).

(** The dict [_order_to_dict] writes for an item. *)
Definition item_doc (E : Environment) (item : Item) : Doc :=
  list_to_map [
    ("item_id", VStr (uuid_str E (item_id item)));
    ("main_colours", VList (VStr <$> main_colours item));
    ("size", VStr (BouquetSize.value (size item)));
    ("comments", from_option VStr VNone (comments item));
    ("created_at", VTime (item_created_at item))
  ].

(** An item as [Item(...)] builds it from a request item, a draw and a
    clock reading. *)
Definition item_of_request (E : Environment) (draw tick : nat) (i : ItemCreate)
    : Item :=
  {| main_colours := ic_main_colours i; size := ic_size i;
     comments := ic_comments i; item_id := uuid4 E draw;
     item_created_at := utcnow E tick |}.

(** An item whose comments were not stored. *)
Definition without_comments (item : Item) : Item :=
  {| main_colours := main_colours item; size := size item; comments := None;
     item_id := item_id item; item_created_at := item_created_at item |}.

(** What [Order(...)] raises when only the two buyer fields are missing. *)
Definition buyer_fields_missing : Exn :=
  ValidationError "Order" [("buyer_email", missing); ("buyer_phone", missing)].

(** The request is the processor's callback. *)
Definition is_webhook (r : Request) : bool :=
  match r with
  | POST_payments_webhook _ _ => true
  | _ => false
  end.

(** *** config.py: [Settings.cors_origins_list] *)

(** [s.split(",")]: the fields between the commas; a string without a
    comma, the empty string included, is one field. *)
Fixpoint split_comma (s : string) : list string :=
  match s with
  | EmptyString => [EmptyString]
  | String c s' =>
      if Ascii.eqb c "," then EmptyString :: split_comma s'
      else
        match split_comma s' with
        | [] => [String c EmptyString]
        | field :: fields => String c field :: fields
        end
  end.

(** [c.isspace()] on the characters of a byte string: tab, line feed,
    vertical tab, form feed, carriage return, the four separators 28 to 31
    and the space. *)
Definition is_space (c : ascii) : bool :=
  let n := nat_of_ascii c in
  ((9 <=? n) && (n <=? 13) || (28 <=? n) && (n <=? 32))%nat.

Fixpoint drop_spaces (l : list ascii) : list ascii :=
  match l with
  | [] => []
  | c :: l' => if is_space c then drop_spaces l' else l
  end.

(** [s.strip()] *)
Definition strip (s : string) : string :=
  string_of_list_ascii
    (rev (drop_spaces (rev (drop_spaces (list_ascii_of_string s))))).

(** [cors_origins_list], for the value of [allowed_origins]; [repr] is
    Python's rendering of a list of strings in the printed line. *)
Definition cors_origins_list (repr : list string -> string)
    (allowed_origins : string) : M (list string) :=
  let _allowed_origins := split_comma allowed_origins in
  let* _ := print ("Allowed origins: " ++ repr _allowed_origins) in
  ret (strip <$> _allowed_origins).

(** The number of commas of a string. *)
Fixpoint commas (s : string) : nat :=
  match s with
  | EmptyString => O
  | String c s' => if Ascii.eqb c "," then S (commas s') else commas s'
  end.

(** A string begins, or ends, with a blank. *)
Definition begins_with_space (s : string) : bool :=
  match list_ascii_of_string s with
  | c :: _ => is_space c
  | [] => false
  end.

Definition ends_with_space (s : string) : bool :=
  match rev (list_ascii_of_string s) with
  | c :: _ => is_space c
  | [] => false
  end.

(** A rendering of lists of strings for the concrete environment. *)
Definition sample_repr (l : list string) : string :=
  "[" ++ String.concat ", " l ++ "]".

(** Variants of the concrete environment: other settings, another
    verdict of the webhook verifier. *)
Definition with_settings (st : Settings) (E : Environment) : Environment :=
  {| uuid_str := uuid_str E; UUID_parse := UUID_parse E; uuid4 := uuid4 E;
     utcnow := utcnow E; parse_datetime := parse_datetime E; settings := st;
     stripe_PaymentIntent_create := stripe_PaymentIntent_create E;
     stripe_Webhook_construct_event := stripe_Webhook_construct_event E |}.

Definition with_verifier (verify : string -> string -> string -> ConstructEvent)
    (E : Environment) : Environment :=
  {| uuid_str := uuid_str E; UUID_parse := UUID_parse E; uuid4 := uuid4 E;
     utcnow := utcnow E; parse_datetime := parse_datetime E;
     settings := settings E;
     stripe_PaymentIntent_create := stripe_PaymentIntent_create E;
     stripe_Webhook_construct_event := verify |}.

(** The settings with the database type that config.py mentions for
    testing and the factory does not know. *)
Definition memory_config : Settings :=
  {| database_type := "memory"; google_cloud_project := "";
     stripe_api_key := "sk_test_key"; stripe_webhook_secret := "whsec_key";
     admin_api_key := "admin-secret" |}.


(** A verifier that accepts every request as a failed payment. *)
Definition failed_payment (payload sig secret : string) : ConstructEvent :=
  EventOk {| event_type := "payment_intent.payment_failed";
             event_metadata := Some {[ "order_id" := payload ]} |}.

(** A request with two bouquets. *)
Definition two_bouquets : OrderCreate :=
  {| oc_items :=
       [ Fixture.bouquet;
         {| ic_main_colours := ["white"]; ic_size := BouquetSize.LARGE;
            ic_comments := None |} ];
     oc_buyer_full_name := "Jane Smith";
     oc_buyer_email := "jane.smith@example.com";
     oc_buyer_phone := "+1-555-0123";
     oc_delivery_address := "123 Main St, New York, NY 10001" |}.

(** * Properties *)

(** ** Reasoning in the monad *)

Lemma bind_Ok {A B} (m : M A) (k : A -> M B) w a w' :
  m w = (Ok a, w') -> bind m k w = k a w'.
Proof. intros H. unfold bind. by rewrite H. Qed.

Lemma bind_Raise {A B} (m : M A) (k : A -> M B) w e w' :
  m w = (Raise e, w') -> bind m k w = (Raise e, w').
Proof. intros H. unfold bind. by rewrite H. Qed.

Section Monad_lemmas.

Context {A B : Type}.
Implicit Types (m : M A) (k : A -> M B) (I : World -> Prop).

Lemma preserves_ret I (a : A) : preserves I (ret a).
Proof. by intros w Hw. Qed.

Lemma preserves_raise I e : preserves I (@raise A e).
Proof. by intros w Hw. Qed.

Lemma preserves_bind I m k :
  preserves I m -> (forall a, preserves I (k a)) -> preserves I (bind m k).
Proof.
  intros Hm Hk w Hw. unfold bind. specialize (Hm w Hw).
  destruct (m w) as [[a|e] w']; simpl in *; [by apply Hk | done].
Qed.

(** What follows a computation that always raises never runs. *)
Lemma preserves_bind_fails I m k :
  preserves I m -> fails m -> preserves I (bind m k).
Proof.
  intros Hm Hf w Hw. unfold bind. specialize (Hm w Hw).
  destruct (Hf w) as [e He].
  destruct (m w) as [[a|e'] w']; simpl in *; [discriminate | done].
Qed.

Lemma fails_raise e : fails (@raise A e).
Proof. intros w. by exists e. Qed.

Lemma fails_bind_l m k : fails m -> fails (bind m k).
Proof.
  intros Hf w. destruct (Hf w) as [e He]. exists e. unfold bind.
  destruct (m w) as [[a|e'] w']; simpl in *; congruence.
Qed.

Lemma fails_bind_r m k : (forall a, fails (k a)) -> fails (bind m k).
Proof.
  intros Hk w. unfold bind.
  destruct (m w) as [[a|e] w']; [apply Hk | by exists e].
Qed.

Lemma quiet_ret (a : A) : quiet (ret a).
Proof. intros w. split; [done | intros e; discriminate]. Qed.

Lemma quiet_raise e : internal e -> quiet (@raise A e).
Proof. intros He w. split; [done | intros e'; simpl; by intros [= <-]]. Qed.

Lemma quiet_bind m k : quiet m -> (forall a, quiet (k a)) -> quiet (bind m k).
Proof.
  intros Hm Hk w. unfold bind. destruct (Hm w) as [Hw He].
  destruct (m w) as [[a|e] w']; simpl in *; subst w'.
  - apply Hk.
  - split; [done | intros e' [= <-]; by apply He].
Qed.

(** A quiet computation that always raises is one internal error. *)
Lemma quiet_fails m w :
  quiet m -> fails m -> exists e, m w = (Raise e, w) /\ internal e.
Proof.
  intros Hq Hf. destruct (Hq w) as [Hw He], (Hf w) as [e Hr].
  exists e. split; [| by apply He].
  destruct (m w) as [r w']; simpl in *. by subst.
Qed.

End Monad_lemmas.

Lemma preserves_for_each {A B} I (f : A -> M B) l :
  (forall x, preserves I (f x)) -> preserves I (for_each f l).
Proof.
  intros Hf. induction l as [|x l IH]; simpl.
  - apply preserves_ret.
  - apply preserves_bind; [apply Hf | intros y].
    apply preserves_bind; [apply IH | intros ys; apply preserves_ret].
Qed.

Lemma quiet_for_each {A B} (f : A -> M B) l :
  (forall x, quiet (f x)) -> quiet (for_each f l).
Proof.
  intros Hf. induction l as [|x l IH]; simpl.
  - apply quiet_ret.
  - apply quiet_bind; [apply Hf | intros y].
    apply quiet_bind; [apply IH | intros ys; apply quiet_ret].
Qed.

(** The loop stops at the first element whose body raises. *)
Lemma fails_for_each {A B} (f : A -> M B) x l :
  (forall x, fails (f x)) -> fails (for_each f (x :: l)).
Proof. intros Hf. simpl. apply fails_bind_l, Hf. Qed.

Lemma preserves_try_except {A} I (m : M A) clauses :
  preserves I m ->
  Forall (fun c : Clause A => forall e, preserves I (c.2 e)) clauses ->
  preserves I (try_except m clauses).
Proof.
  intros Hm Hc w Hw. unfold try_except. specialize (Hm w Hw).
  destruct (m w) as [[a|e] w']; simpl in *; [done |].
  destruct (find_clause e clauses) as [h|] eqn:Hfind; [| done].
  induction Hc as [|[test h'] rest Hh _ IH]; simpl in Hfind; [discriminate |].
  destruct (test e); [| by apply IH].
  injection Hfind as <-. by apply Hh.
Qed.

(** Case analysis on the scrutinee of the first [match] of the goal. *)
Ltac step_match :=
  match goal with
  | |- context [match ?x with _ => _ end] => destruct x eqn:?
  end.

(** [quiet] and [preserves] through [ret], [raise], [bind] and [for_each]:
    what is left are the computations the program is built from. *)
Ltac quiet_steps :=
  repeat lazymatch goal with
    | |- quiet (ret _) => apply quiet_ret
    | |- quiet (raise _) => apply quiet_raise; exact I
    | |- quiet (bind _ _) => apply quiet_bind; [| intros ?]
    | |- quiet (for_each _ _) => apply quiet_for_each; intros ?
    end.

Ltac frame_steps :=
  repeat lazymatch goal with
    | |- preserves _ (ret _) => apply preserves_ret
    | |- preserves _ (raise _) => apply preserves_raise
    | |- preserves _ (bind _ _) => apply preserves_bind; [| intros ?]
    | |- preserves _ (for_each _ _) => apply preserves_for_each; intros ?
    end.

Section Properties.

Context (E : Environment).

(** ** The store under the primitive effects *)

Section Frames.

Context (P : gmap string Doc -> Prop).

Lemma preserves_uuid4_call : preserves (of_store P) (uuid4_call E).
Proof. by intros w Hw. Qed.

Lemma preserves_utcnow_call : preserves (of_store P) (utcnow_call E).
Proof. by intros w Hw. Qed.

Lemma preserves_print line : preserves (of_store P) (print line).
Proof. by intros w Hw. Qed.

Lemma preserves_doc_get doc_id : preserves (of_store P) (doc_get doc_id).
Proof. by intros w Hw. Qed.

Lemma preserves_collection_stream : preserves (of_store P) collection_stream.
Proof. by intros w Hw. Qed.

Lemma preserves_get_database_adapter :
  preserves (of_store P) get_database_adapter.
Proof. intros w Hw. unfold get_database_adapter. by destruct (_db_adapter w). Qed.

Lemma preserves_require_db self : preserves (of_store P) (require_db self).
Proof. unfold require_db. destruct (db self); frame_steps. Qed.

Lemma preserves_PaymentIntent_create amt cur oid :
  preserves (of_store P) (PaymentIntent_create E amt cur oid).
Proof.
  intros w Hw. unfold PaymentIntent_create.
  by destruct (stripe_PaymentIntent_create _ _ _ _ _).
Qed.

Lemma preserves_Webhook_construct_event payload sig secret :
  preserves (of_store P) (Webhook_construct_event E payload sig secret).
Proof.
  unfold Webhook_construct_event.
  destruct (stripe_Webhook_construct_event _ _ _ _); frame_steps.
Qed.

Lemma preserves_UUID_of_str s : preserves (of_store P) (UUID_of_str E s).
Proof. unfold UUID_of_str. destruct (UUID_parse E s); frame_steps. Qed.

Lemma preserves_uuid_field arg : preserves (of_store P) (uuid_field E arg).
Proof. destruct arg; simpl; [frame_steps | apply preserves_uuid4_call]. Qed.

Lemma preserves_datetime_field name arg :
  preserves (of_store P) (datetime_field E name arg).
Proof.
  destruct arg; simpl; frame_steps. apply preserves_utcnow_call.
Qed.

Lemma preserves_Item_init a : preserves (of_store P) (Item_init E a).
Proof.
  unfold Item_init. cbv zeta. frame_steps.
  - apply preserves_uuid_field.
  - apply preserves_datetime_field.
  - repeat step_match; frame_steps.
Qed.

Lemma preserves_Order_init a : preserves (of_store P) (Order_init E a).
Proof.
  unfold Order_init. cbv zeta. frame_steps.
  - apply preserves_uuid_field.
  - apply preserves_datetime_field.
  - apply preserves_datetime_field.
  - repeat step_match; frame_steps.
Qed.

End Frames.

(** ** Model construction *)

Lemma uuid_field_quiet u : quiet (uuid_field E (Some u)).
Proof. apply quiet_ret. Qed.

Lemma datetime_field_quiet name v : quiet (datetime_field E name (Some v)).
Proof. apply quiet_ret. Qed.

(** Rebuilding an item from stored values draws nothing and prints
    nothing. *)
Lemma Item_init_quiet a u v :
  arg_item_id a = Some u -> arg_item_created_at a = Some v ->
  quiet (Item_init E a).
Proof.
  intros Hu Hv. unfold Item_init. rewrite Hu, Hv. cbv zeta. quiet_steps.
  - apply uuid_field_quiet.
  - apply datetime_field_quiet.
  - repeat step_match; quiet_steps.
Qed.

Lemma Order_init_quiet a u tc tu :
  arg_order_id a = Some u -> arg_created_at a = Some tc ->
  arg_updated_at a = Some tu ->
  quiet (Order_init E a).
Proof.
  intros Hu Hc Ht. unfold Order_init. rewrite Hu, Hc, Ht. cbv zeta. quiet_steps.
  - apply uuid_field_quiet.
  - apply datetime_field_quiet.
  - apply datetime_field_quiet.
  - repeat step_match; quiet_steps.
Qed.

(** With every required field passed, [Order(...)] returns: the id is the
    next draw, the statuses take their defaults and the two timestamps are
    the next two clock readings. *)
Lemma Order_init_defaults its name email phone address w :
  Order_init E {| arg_order_id := None;
                  arg_items := Some its;
                  arg_buyer_full_name := Some (VStr name);
                  arg_buyer_email := Some (VStr email);
                  arg_buyer_phone := Some (VStr phone);
                  arg_delivery_address := Some (VStr address);
                  arg_payment_status := None;
                  arg_order_status := None;
                  arg_created_at := None;
                  arg_updated_at := None |} w
  = (Ok {| order_id := uuid4 E (draws w);
           items := its;
           buyer_full_name := name;
           buyer_email := email;
           buyer_phone := phone;
           delivery_address := address;
           payment_status := PaymentStatus.INCOMPLETE;
           order_status := OrderStatus.NOT_STARTED;
           created_at := utcnow E (ticks w);
           updated_at := utcnow E (S (ticks w)) |},
     next_tick (next_tick (next_draw w))).
Proof. reflexivity. Qed.

(** [Order(...)] without [buyer_email] never returns an order. *)
Lemma Order_init_without_email a :
  arg_buyer_email a = None -> fails (Order_init E a).
Proof.
  intros Hmail. unfold Order_init. rewrite Hmail. cbv zeta.
  do 3 (apply fails_bind_r; intros ?).
  simpl. repeat step_match; try apply fails_raise; simplify_eq.
Qed.

(** ** Reading a document back *)

Lemma getitem_quiet d key : quiet (getitem d key).
Proof. unfold getitem. destruct (d !! key); quiet_steps. Qed.

Lemma subscript_quiet v key : quiet (subscript v key).
Proof. destruct v; simpl; quiet_steps. apply getitem_quiet. Qed.

Lemma get_or_None_quiet v key : quiet (get_or_None v key).
Proof. destruct v; simpl; quiet_steps. Qed.

Lemma iterate_quiet v : quiet (iterate v).
Proof. destruct v; simpl; quiet_steps. Qed.

Lemma UUID_of_quiet v : quiet (UUID_of E v).
Proof.
  destruct v; simpl; quiet_steps.
  unfold UUID_of_str. destruct (UUID_parse E s); quiet_steps.
Qed.

Lemma PaymentStatus_of_quiet v : quiet (PaymentStatus_of v).
Proof.
  destruct v; simpl; quiet_steps. destruct (PaymentStatus.of_value s); quiet_steps.
Qed.

Lemma OrderStatus_of_quiet v : quiet (OrderStatus_of v).
Proof.
  destruct v; simpl; quiet_steps. destruct (OrderStatus.of_value s); quiet_steps.
Qed.

Lemma item_of_dict_quiet item : quiet (item_of_dict E item).
Proof.
  unfold item_of_dict. quiet_steps;
    eauto using subscript_quiet, UUID_of_quiet, get_or_None_quiet.
  eapply Item_init_quiet; reflexivity.
Qed.

Lemma _dict_to_order_quiet data : quiet (_dict_to_order E data).
Proof.
  unfold _dict_to_order. quiet_steps;
    eauto using getitem_quiet, iterate_quiet, UUID_of_quiet, item_of_dict_quiet,
      PaymentStatus_of_quiet, OrderStatus_of_quiet.
  eapply Order_init_quiet; reflexivity.
Qed.

(** [_dict_to_order] passes neither [buyer_email] nor [buyer_phone] to
    [Order(...)], which requires both: whatever the document holds, the
    conversion raises. *)
Lemma _dict_to_order_fails data : fails (_dict_to_order E data).
Proof.
  unfold _dict_to_order. do 13 (apply fails_bind_r; intros ?).
  by apply Order_init_without_email.
Qed.

Lemma _dict_to_order_raises data w :
  exists e, _dict_to_order E data w = (Raise e, w) /\ internal e.
Proof.
  apply quiet_fails; [apply _dict_to_order_quiet | apply _dict_to_order_fails].
Qed.

Lemma preserves__dict_to_order P data :
  preserves (of_store P) (_dict_to_order E data).
Proof.
  intros w Hw. destruct (_dict_to_order_raises data w) as (e & -> & _). done.
Qed.

(** ** The adapter's reads *)

Lemma require_db_ready self c w : db self = Some c -> require_db self w = (Ok c, w).
Proof. intros H. unfold require_db. by rewrite H. Qed.

Lemma get_order_absent self c oid w :
  db self = Some c -> firestore w !! uuid_str E oid = None ->
  get_order E self oid w = (Ok None, after_read (DocGet (uuid_str E oid)) w).
Proof.
  intros Hdb Hdoc. unfold get_order.
  rewrite (bind_Ok _ _ w c w (require_db_ready _ _ _ Hdb)).
  unfold bind, doc_get. by rewrite Hdoc.
Qed.

(** [get_order] on the id of a stored document raises: it never returns the
    order. *)
Lemma get_order_stored self c oid w data :
  db self = Some c -> firestore w !! uuid_str E oid = Some data ->
  exists e,
    get_order E self oid w = (Raise e, after_read (DocGet (uuid_str E oid)) w)
    /\ internal e.
Proof.
  intros Hdb Hdoc. unfold get_order.
  rewrite (bind_Ok _ _ w c w (require_db_ready _ _ _ Hdb)).
  unfold bind at 1. unfold doc_get at 1. rewrite Hdoc.
  destruct (_dict_to_order_raises data (after_read (DocGet (uuid_str E oid)) w))
    as (e & He & Hint).
  exists e. split; [| done]. unfold bind, after_read in *. by rewrite He.
Qed.

Lemma get_order_never_returns self oid w o :
  fst (get_order E self oid w) <> Ok (Some o).
Proof.
  unfold get_order, bind, require_db.
  destruct (db self); [| by simpl].
  simpl. destruct (firestore w !! uuid_str E oid) as [data|]; [| by simpl].
  destruct (_dict_to_order_raises data (db_access (DocGet (uuid_str E oid)) (firestore w) w))
    as (e & -> & _). by simpl.
Qed.

Lemma preserves_get_order P self oid :
  preserves (of_store P) (get_order E self oid).
Proof.
  unfold get_order. frame_steps.
  - apply preserves_require_db.
  - apply preserves_doc_get.
  - step_match; frame_steps. apply preserves__dict_to_order.
Qed.

Lemma preserves_read_back P doc_id : preserves (of_store P) (read_back E doc_id).
Proof.
  unfold read_back. frame_steps; [apply preserves_doc_get |].
  step_match; frame_steps. apply preserves__dict_to_order.
Qed.

Lemma preserves_get_all_orders P self :
  preserves (of_store P) (get_all_orders E self).
Proof.
  unfold get_all_orders. frame_steps.
  - apply preserves_require_db.
  - apply preserves_collection_stream.
  - apply preserves__dict_to_order.
Qed.

(** ** Submitting an order *)

Lemma all_str_fmap (cs : list string) : all_str (VStr <$> cs) = Some cs.
Proof.
  induction cs as [|c cs IH]; [done |].
  rewrite fmap_cons. cbn [all_str]. by rewrite IH.
Qed.

Lemma check_size_value sz :
  check_size (Some (VStr (BouquetSize.value sz))) = inr sz.
Proof. by destruct sz. Qed.

Lemma check_main_colours_dump cs :
  (1 <=? length cs)%nat = true ->
  check_main_colours (Some (VList (VStr <$> cs))) = inr cs.
Proof.
  intros Hlen. unfold check_main_colours. rewrite all_str_fmap.
  by destruct cs.
Qed.

Lemma check_comments_dump com :
  comments_ok com = true ->
  check_comments (Some (from_option VStr VNone com)) = inr com.
Proof. destruct com as [s|]; simpl; [by intros -> | done]. Qed.

(** [Item(...)] on the dump of a valid [ItemCreate] returns the item, with
    the next draw as its id and the next clock reading as its creation
    time. *)
Lemma Item_init_model_dump i w :
  ItemCreate_valid i = true ->
  Item_init E (ItemCreate_model_dump i) w =
    (Ok {| main_colours := ic_main_colours i; size := ic_size i;
           comments := ic_comments i; item_id := uuid4 E (draws w);
           item_created_at := utcnow E (ticks w) |},
     next_tick (next_draw w)).
Proof.
  unfold ItemCreate_valid. intros [Hlen Hcom]%andb_prop.
  destruct i as [colours sz com]. simpl in *.
  unfold Item_init, ItemCreate_model_dump, bind.
  cbn [arg_main_colours arg_size arg_comments arg_item_id arg_item_created_at
       ic_main_colours ic_size ic_comments].
  rewrite (check_main_colours_dump _ Hlen), check_size_value,
    (check_comments_dump _ Hcom).
  reflexivity.
Qed.

Lemma for_each_Item_init_model_dump l w :
  forallb ItemCreate_valid l = true ->
  exists its w',
    for_each (fun item => Item_init E (ItemCreate_model_dump item)) l w
    = (Ok its, w').
Proof.
  revert w. induction l as [|i l IH]; intros w Hall; simpl in *.
  - by eexists _, _.
  - apply andb_prop in Hall as [Hi Hl].
    rewrite (bind_Ok _ _ _ _ _ (Item_init_model_dump i w Hi)).
    destruct (IH (next_tick (next_draw w)) Hl) as (its & w' & Hrest).
    rewrite (bind_Ok _ _ _ _ _ Hrest). by eexists _, _.
Qed.

Lemma submit_order_fails order_data : fails (submit_order E order_data).
Proof.
  unfold submit_order. apply fails_bind_r; intros its.
  by apply fails_bind_l, Order_init_without_email.
Qed.

(** No request reaches [create_order]. *)
Lemma preserves_submit_order P order_data :
  preserves (of_store P) (submit_order E order_data).
Proof.
  unfold submit_order. apply preserves_bind.
  - apply preserves_for_each; intros i. apply preserves_Item_init.
  - intros its. apply preserves_bind_fails.
    + apply preserves_Order_init.
    + by apply Order_init_without_email.
Qed.

(** C1, as the code behaves: for every valid order-creation request,
    [submit_order] raises the [ValidationError] of an [Order] built without
    [buyer_email] and [buyer_phone] instead of returning the stored order;
    the framework answers with an internal server error and no document is
    written. *)
Theorem submit_order_raises_on_valid_request (order_data : OrderCreate) (w : World) :
  OrderCreate_valid order_data = true ->
  fst (submit_order E order_data w)
  = Raise (ValidationError "Order"
             [("buyer_email", missing); ("buyer_phone", missing)])
  /\ fst (handle E (POST_orders order_data) w)
     = {| response_status := HTTP_500_INTERNAL_SERVER_ERROR;
          response_body := InternalServerErrorBody |}
  /\ firestore (snd (handle E (POST_orders order_data) w)) = firestore w.
Proof.
  intros Hvalid.
  assert (Hraise : fst (submit_order E order_data w)
    = Raise (ValidationError "Order"
               [("buyer_email", missing); ("buyer_phone", missing)])).
  { unfold OrderCreate_valid in Hvalid.
    repeat (apply andb_prop in Hvalid as [Hvalid ?]).
    destruct (for_each_Item_init_model_dump (oc_items order_data) w)
      as (its & w' & Hits); [done |].
    unfold submit_order. rewrite (bind_Ok _ _ _ _ _ Hits). reflexivity. }
  split; [done |].
  pose proof (preserves_submit_order (fun fs => fs = firestore w) order_data w
                eq_refl) as Hstore.
  unfold of_store in Hstore.
  simpl. rewrite Hvalid. unfold respond.
  destruct (submit_order E order_data w) as [r w']; simpl in *; subst r.
  by split.
Qed.

(** ** Writing an order and reading it back *)

Lemma create_order_ready self c order w :
  db self = Some c ->
  create_order E self order w
  = (Ok order,
     db_access (DocSet (uuid_str E (order_id order)))
       (<[uuid_str E (order_id order) := _order_to_dict E order]> (firestore w)) w).
Proof.
  intros Hdb. unfold create_order.
  by rewrite (bind_Ok _ _ w c w (require_db_ready _ _ _ Hdb)).
Qed.

(** The persisted record has eight keys; the buyer's email and phone are
    not among them. *)
Lemma _order_to_dict_keys order :
  dom (_order_to_dict E order)
  = list_to_set ["order_id"; "items"; "buyer_full_name"; "delivery_address";
                 "payment_status"; "order_status"; "created_at"; "updated_at"].
Proof.
  unfold _order_to_dict. rewrite dom_list_to_map_L. reflexivity.
Qed.

Lemma _order_to_dict_no_email order :
  _order_to_dict E order !! "buyer_email" = None.
Proof. reflexivity. Qed.

Lemma _order_to_dict_no_phone order :
  _order_to_dict E order !! "buyer_phone" = None.
Proof. reflexivity. Qed.

(** *** The one step that fails

    For an order whose items satisfy the constraints of [Item], and a uuid
    library whose [UUID(str(u))] is [u], every step of
    [_dict_to_order (_order_to_dict order)] succeeds except the last:
    [Order(...)] is called without the two required fields. *)

Section Written_order.

Hypothesis uuid_round_trip : forall u, UUID_parse E (uuid_str E u) = Some u.

Lemma UUID_of_uuid_str u w : UUID_of E (VStr (uuid_str E u)) w = (Ok u, w).
Proof. unfold UUID_of, UUID_of_str. by rewrite uuid_round_trip. Qed.

Lemma item_of_dict_item_to_dict item w :
  Item_ok item = true ->
  item_of_dict E (item_to_dict E item) w = (Ok item, w).
Proof.
  unfold Item_ok. intros [Hlen Hcom]%andb_prop.
  unfold item_of_dict.
  rewrite (bind_Ok (subscript (item_to_dict E item) "item_id") _
             w (VStr (uuid_str E (item_id item))) w eq_refl).
  rewrite (bind_Ok _ _ _ _ _ (UUID_of_uuid_str (item_id item) w)).
  rewrite (bind_Ok (subscript (item_to_dict E item) "main_colours") _
             w (VList (VStr <$> main_colours item)) w eq_refl).
  rewrite (bind_Ok (subscript (item_to_dict E item) "size") _
             w (VStr (BouquetSize.value (size item))) w eq_refl).
  rewrite (bind_Ok (get_or_None (item_to_dict E item) "comments") _
             w (from_option VStr VNone (comments item)) w eq_refl).
  rewrite (bind_Ok (subscript (item_to_dict E item) "created_at") _
             w (VTime (item_created_at item)) w eq_refl).
  unfold Item_init, bind.
  cbn [arg_main_colours arg_size arg_comments arg_item_id arg_item_created_at].
  rewrite (check_main_colours_dump _ Hlen), check_size_value,
    (check_comments_dump _ Hcom).
  by destruct item.
Qed.

Lemma for_each_item_of_dict its w :
  forallb Item_ok its = true ->
  for_each (item_of_dict E) (item_to_dict E <$> its) w = (Ok its, w).
Proof.
  induction its as [|item its IH]; intros Hall; [done |].
  apply andb_prop in Hall as [Hitem Hits].
  rewrite fmap_cons. cbn [for_each].
  rewrite (bind_Ok _ _ _ _ _ (item_of_dict_item_to_dict item w Hitem)).
  by rewrite (bind_Ok _ _ _ _ _ (IH Hits)).
Qed.

Lemma PaymentStatus_of_value p w :
  PaymentStatus_of (VStr (PaymentStatus.value p)) w = (Ok p, w).
Proof. by destruct p. Qed.

Lemma OrderStatus_of_value s w :
  OrderStatus_of (VStr (OrderStatus.value s)) w = (Ok s, w).
Proof. by destruct s. Qed.

Lemma _dict_to_order_of_written_order order w :
  forallb Item_ok (items order) = true ->
  _dict_to_order E (_order_to_dict E order) w
  = (Raise (ValidationError "Order"
              [("buyer_email", missing); ("buyer_phone", missing)]), w).
Proof.
  intros Hitems. unfold _dict_to_order.
  set (data := _order_to_dict E order).
  rewrite (bind_Ok (getitem data "items") _
             w (VList (item_to_dict E <$> items order)) w eq_refl).
  rewrite (bind_Ok (iterate (VList (item_to_dict E <$> items order))) _
             w (item_to_dict E <$> items order) w eq_refl).
  rewrite (bind_Ok _ _ _ _ _ (for_each_item_of_dict _ w Hitems)).
  rewrite (bind_Ok (getitem data "order_id") _
             w (VStr (uuid_str E (order_id order))) w eq_refl).
  rewrite (bind_Ok _ _ _ _ _ (UUID_of_uuid_str (order_id order) w)).
  rewrite (bind_Ok (getitem data "buyer_full_name") _
             w (VStr (buyer_full_name order)) w eq_refl).
  rewrite (bind_Ok (getitem data "delivery_address") _
             w (VStr (delivery_address order)) w eq_refl).
  rewrite (bind_Ok (getitem data "payment_status") _
             w (VStr (PaymentStatus.value (payment_status order))) w eq_refl).
  rewrite (bind_Ok _ _ _ _ _ (PaymentStatus_of_value _ w)).
  rewrite (bind_Ok (getitem data "order_status") _
             w (VStr (OrderStatus.value (order_status order))) w eq_refl).
  rewrite (bind_Ok _ _ _ _ _ (OrderStatus_of_value _ w)).
  rewrite (bind_Ok (getitem data "created_at") _
             w (VTime (created_at order)) w eq_refl).
  rewrite (bind_Ok (getitem data "updated_at") _
             w (VTime (updated_at order)) w eq_refl).
  reflexivity.
Qed.

End Written_order.

(** C2, as the code behaves: after [create_order] has stored an order, the
    persisted record is [_order_to_dict order], which holds neither the
    buyer's email nor the buyer's phone, and [get_order] on the order's id
    raises an internal error instead of returning the order. *)
Theorem get_order_after_create_order_raises
    (self : FirestoreAdapter) (c : AsyncClient) (order : Order) (w : World) :
  db self = Some c ->
  let w1 := snd (create_order E self order w) in
  firestore w1 !! uuid_str E (order_id order) = Some (_order_to_dict E order)
  /\ _order_to_dict E order !! "buyer_email" = None
  /\ _order_to_dict E order !! "buyer_phone" = None
  /\ exists e,
       fst (get_order E self (order_id order) w1) = Raise e /\ internal e.
Proof.
  intros Hdb w1. subst w1. rewrite (create_order_ready _ _ _ _ Hdb).
  cbn [snd].
  assert (Hstored : forall fs op,
    firestore (db_access op
      (<[uuid_str E (order_id order) := _order_to_dict E order]> fs) w)
    !! uuid_str E (order_id order) = Some (_order_to_dict E order)).
  { intros fs op. cbn [firestore db_access]. apply lookup_insert_eq. }
  split; [apply Hstored |].
  split; [apply _order_to_dict_no_email |].
  split; [apply _order_to_dict_no_phone |].
  edestruct get_order_stored as (e & He & Hint); [exact Hdb | apply Hstored |].
  exists e. by rewrite He.
Qed.

(** ** Status updates *)

Lemma doc_update_stored doc_id fields d w :
  firestore w !! doc_id = Some d ->
  doc_update doc_id fields w
  = (Ok tt, db_access (DocUpdate doc_id) (<[doc_id := fields ∪ d]> (firestore w)) w).
Proof. intros H. unfold doc_update. by rewrite H. Qed.

Lemma update_order_payment_status_absent self c oid status w :
  db self = Some c -> firestore w !! uuid_str E oid = None ->
  update_order_payment_status E self oid status w
  = (Ok None, after_read (DocGet (uuid_str E oid)) w).
Proof.
  intros Hdb Hdoc. unfold update_order_payment_status.
  rewrite (bind_Ok _ _ w c w (require_db_ready _ _ _ Hdb)).
  unfold bind, doc_get. by rewrite Hdoc.
Qed.

Lemma update_order_status_absent self c oid status w :
  db self = Some c -> firestore w !! uuid_str E oid = None ->
  update_order_status E self oid status w
  = (Ok None, after_read (DocGet (uuid_str E oid)) w).
Proof.
  intros Hdb Hdoc. unfold update_order_status.
  rewrite (bind_Ok _ _ w c w (require_db_ready _ _ _ Hdb)).
  unfold bind, doc_get. by rewrite Hdoc.
Qed.

(** After the write, reading the document back raises; the write stays. *)
Lemma read_back_after_update doc_id fields d w :
  firestore w !! doc_id = Some d ->
  exists e w',
    bind (doc_update doc_id fields) (fun _ => read_back E doc_id) w = (Raise e, w')
    /\ internal e
    /\ firestore w' = <[doc_id := fields ∪ d]> (firestore w).
Proof.
  intros Hdoc. rewrite (bind_Ok _ _ _ _ _ (doc_update_stored _ fields _ _ Hdoc)).
  unfold read_back, bind at 1, doc_get.
  cbn [firestore db_access]. rewrite lookup_insert_eq.
  match goal with
  | |- context [bind (_dict_to_order E ?data) ?k ?w1] =>
      destruct (_dict_to_order_raises data w1) as (e & He & Hint);
      rewrite (bind_Raise _ k _ _ _ He)
  end.
  eexists e, _. by repeat split.
Qed.

Lemma update_order_payment_status_stored self c oid status w d :
  db self = Some c -> firestore w !! uuid_str E oid = Some d ->
  exists e w',
    update_order_payment_status E self oid status w = (Raise e, w')
    /\ internal e
    /\ firestore w'
       = <[uuid_str E oid := payment_fields status (utcnow E (ticks w)) ∪ d]>
           (firestore w).
Proof.
  intros Hdb Hdoc. unfold update_order_payment_status.
  rewrite (bind_Ok _ _ w c w (require_db_ready _ _ _ Hdb)).
  unfold bind at 1. unfold doc_get at 1. rewrite Hdoc.
  unfold bind at 1. unfold utcnow_call at 1.
  exact (read_back_after_update (uuid_str E oid)
           (payment_fields status (utcnow E (ticks w))) d
           (next_tick (after_read (DocGet (uuid_str E oid)) w)) Hdoc).
Qed.

Lemma update_order_status_stored self c oid status w d :
  db self = Some c -> firestore w !! uuid_str E oid = Some d ->
  exists e w',
    update_order_status E self oid status w = (Raise e, w')
    /\ internal e
    /\ firestore w'
       = <[uuid_str E oid := status_fields status (utcnow E (ticks w)) ∪ d]>
           (firestore w).
Proof.
  intros Hdb Hdoc. unfold update_order_status.
  rewrite (bind_Ok _ _ w c w (require_db_ready _ _ _ Hdb)).
  unfold bind at 1. unfold doc_get at 1. rewrite Hdoc.
  unfold bind at 1. unfold utcnow_call at 1.
  exact (read_back_after_update (uuid_str E oid)
           (status_fields status (utcnow E (ticks w))) d
           (next_tick (after_read (DocGet (uuid_str E oid)) w)) Hdoc).
Qed.

Lemma payment_fields_lookup status now key :
  payment_fields status now !! key
  = if decide (key = "payment_status")
    then Some (VStr (PaymentStatus.value status))
    else if decide (key = "updated_at") then Some (VTime now) else None.
Proof.
  unfold payment_fields. cbn [list_to_map foldr uncurry fst snd].
  repeat case_decide; subst.
  - by rewrite lookup_insert_eq.
  - rewrite lookup_insert_ne by done. by rewrite lookup_insert_eq.
  - by rewrite !lookup_insert_ne, lookup_empty by done.
Qed.

Lemma status_fields_lookup status now key :
  status_fields status now !! key
  = if decide (key = "order_status")
    then Some (VStr (OrderStatus.value status))
    else if decide (key = "updated_at") then Some (VTime now) else None.
Proof.
  unfold status_fields. cbn [list_to_map foldr uncurry fst snd].
  repeat case_decide; subst.
  - by rewrite lookup_insert_eq.
  - rewrite lookup_insert_ne by done. by rewrite lookup_insert_eq.
  - by rewrite !lookup_insert_ne, lookup_empty by done.
Qed.

(** The document after [update] with the payment fields. *)
Lemma payment_fields_union status now (d : Doc) :
  (payment_fields status now ∪ d) !! "payment_status"
  = Some (VStr (PaymentStatus.value status))
  /\ (payment_fields status now ∪ d) !! "updated_at" = Some (VTime now)
  /\ (forall key, key <> "payment_status" -> key <> "updated_at" ->
        (payment_fields status now ∪ d) !! key = d !! key).
Proof.
  split; [| split].
  - apply lookup_union_Some_l. by rewrite payment_fields_lookup.
  - apply lookup_union_Some_l. by rewrite payment_fields_lookup.
  - intros key H1 H2. apply lookup_union_r. rewrite payment_fields_lookup.
    by rewrite !decide_False.
Qed.

(** C3, amended: on a stored order, [update_order_payment_status] sets the
    payment status to the given value and the updated timestamp to the
    clock reading taken at the update, and leaves every other field of the
    document and every other document as they were; the updated timestamp
    is strictly later than the creation timestamp whenever that clock
    reading is. For an id with no stored order it returns [None] and the
    store is unchanged. *)
Theorem update_order_payment_status_frame
    (self : FirestoreAdapter) (c : AsyncClient) (oid : UUID)
    (status : PaymentStatus.t) (w : World) :
  db self = Some c ->
  let doc_id := uuid_str E oid in
  let now := utcnow E (ticks w) in
  let result := update_order_payment_status E self oid status w in
  match firestore w !! doc_id with
  | None => fst result = Ok None /\ firestore (snd result) = firestore w
  | Some d =>
      exists d',
        firestore (snd result) !! doc_id = Some d'
        /\ d' !! "payment_status" = Some (VStr (PaymentStatus.value status))
        /\ d' !! "updated_at" = Some (VTime now)
        /\ (forall key, key <> "payment_status" -> key <> "updated_at" ->
              d' !! key = d !! key)
        /\ (forall other, other <> doc_id ->
              firestore (snd result) !! other = firestore w !! other)
        /\ (forall tc, d !! "created_at" = Some (VTime tc) -> tc < now ->
              updated_after_created d')
  end.
Proof.
  intros Hdb doc_id now result. subst doc_id now result.
  destruct (firestore w !! uuid_str E oid) as [d|] eqn:Hdoc.
  - destruct (update_order_payment_status_stored self c oid status w d Hdb Hdoc)
      as (e & w' & -> & _ & Hstore).
    exists (payment_fields status (utcnow E (ticks w)) ∪ d).
    cbn [snd]. rewrite Hstore.
    destruct (payment_fields_union status (utcnow E (ticks w)) d)
      as (Hpay & Hupd & Hrest).
    split; [apply lookup_insert_eq |].
    split; [exact Hpay |]. split; [exact Hupd |]. split; [exact Hrest |].
    split; [intros other Hother; by rewrite lookup_insert_ne |].
    intros tc Hc Hlt. exists tc, (utcnow E (ticks w)).
    split; [by rewrite Hrest | by split].
  - rewrite (update_order_payment_status_absent _ _ _ _ _ Hdb Hdoc). by split.
Qed.

(** ** Endpoints that look an order up first *)

(** Start-up with the Firestore database type leaves the adapter ready. *)
Lemma initialize_database_running w :
  database_type (settings E) = "firestore" ->
  running (snd (initialize_database E w)).
Proof.
  intros Htype. unfold initialize_database. rewrite decide_True by done.
  by eexists _, _.
Qed.

Lemma get_database_adapter_running w :
  running w ->
  exists a c, get_database_adapter w = (Ok a, w) /\ db a = Some c.
Proof.
  intros (a & c & Ha & Hc). exists a, c. unfold get_database_adapter.
  by rewrite Ha.
Qed.

(** C4, as the code behaves: the admin order-status update answers not-found
    for an unknown id, but for every stored order the look-up that precedes
    the update raises an internal error, so the order status is never
    written: the store is left as it was. *)
Theorem update_order_processing_status_never_updates
    (oid : UUID) (status_update : OrderStatusUpdate) (w : World) :
  running w ->
  let result := update_order_processing_status E oid status_update w in
  match firestore w !! uuid_str E oid with
  | None =>
      fst result = Raise (order_not_found E oid)
      /\ firestore (snd result) = firestore w
  | Some d =>
      (exists e, fst result = Raise e /\ internal e)
      /\ firestore (snd result) = firestore w
  end.
Proof.
  intros Hrun result. subst result.
  destruct (get_database_adapter_running w Hrun) as (a & c & Hget & Hdb).
  unfold update_order_processing_status. rewrite (bind_Ok _ _ _ _ _ Hget).
  destruct (firestore w !! uuid_str E oid) as [d|] eqn:Hdoc.
  - destruct (get_order_stored a c oid w d Hdb Hdoc) as (e & He & Hint).
    rewrite (bind_Raise _ _ _ _ _ He). split; [by exists e | done].
  - rewrite (bind_Ok _ _ _ _ _ (get_order_absent a c oid w Hdb Hdoc)). by split.
Qed.

(** C5, as the code behaves: [create_payment_intent] answers not-found for
    an unknown order id, and never calls the processor in either case; but
    for every stored order, paid or not, the look-up raises an internal
    error, so the conflict error for a paid order is never produced. *)
Theorem create_payment_intent_on_stored_order
    (payment_data : PaymentIntent) (w : World) :
  running w ->
  let result := create_payment_intent E payment_data w in
  match firestore w !! uuid_str E (pi_order_id payment_data) with
  | None =>
      fst result = Raise (order_not_found E (pi_order_id payment_data))
      /\ stripe_calls (snd result) = stripe_calls w
  | Some d =>
      (exists e, fst result = Raise e /\ internal e)
      /\ stripe_calls (snd result) = stripe_calls w
  end.
Proof.
  intros Hrun result. subst result.
  destruct (get_database_adapter_running w Hrun) as (a & c & Hget & Hdb).
  unfold create_payment_intent. rewrite (bind_Ok _ _ _ _ _ Hget).
  destruct (firestore w !! uuid_str E (pi_order_id payment_data))
    as [d|] eqn:Hdoc.
  - destruct (get_order_stored a c _ w d Hdb Hdoc) as (e & He & Hint).
    rewrite (bind_Raise _ _ _ _ _ He). split; [by exists e | done].
  - rewrite (bind_Ok _ _ _ _ _ (get_order_absent a c _ w Hdb Hdoc)). by split.
Qed.

(** ** Listing the orders *)

Lemma collection_stream_ready w :
  collection_stream w = (Ok (map_to_list (firestore w)).*2, after_read Stream w).
Proof. reflexivity. Qed.

(** C9, as the code behaves: [get_all_orders] returns the empty list for an
    empty store, and for every store that holds a document it raises an
    internal error while converting the first document: no list of orders,
    sorted or not, is returned. *)
Theorem get_all_orders_raises_on_stored_orders
    (self : FirestoreAdapter) (c : AsyncClient) (w : World) :
  db self = Some c ->
  (firestore w = ∅ -> fst (get_all_orders E self w) = Ok [])
  /\ (firestore w <> ∅ ->
      exists e, fst (get_all_orders E self w) = Raise e /\ internal e).
Proof.
  intros Hdb. unfold get_all_orders.
  rewrite (bind_Ok _ _ w c w (require_db_ready _ _ _ Hdb)).
  rewrite (bind_Ok _ _ w _ _ (collection_stream_ready w)). split.
  - intros ->. by rewrite map_to_list_empty.
  - intros Hne.
    destruct (map_to_list (firestore w)) as [|[k d] rest] eqn:Hlist.
    { by apply map_to_list_empty_iff in Hlist. }
    rewrite fmap_cons. cbn [snd].
    match goal with
    | |- context [bind ?m ?k ?w1] =>
        destruct (quiet_fails m w1) as (e & He & Hint);
        [ apply quiet_for_each, _dict_to_order_quiet
        | apply fails_for_each, _dict_to_order_fails
        | rewrite (bind_Raise m k _ _ _ He) ]
    end.
    by exists e.
Qed.

(** ** The webhook *)

(** C6: a webhook request whose signature header is missing, whose payload
    cannot be verified or whose signature is invalid is rejected with a
    client error (status 400) whose detail tells the three cases apart, and
    the world is exactly as before: no order was looked up and the store
    was not accessed. *)
Theorem stripe_webhook_rejects_before_storage
    (payload : string) (stripe_signature : option string)
    (r : WebhookRejection) (w : World) :
  webhook_rejection E payload stripe_signature = Some r ->
  stripe_webhook E payload stripe_signature w
  = (Raise (HTTPException HTTP_400_BAD_REQUEST (rejection_detail r)), w)
  /\ handle E (POST_payments_webhook stripe_signature payload) w
     = ({| response_status := HTTP_400_BAD_REQUEST;
           response_body := DetailBody (rejection_detail r) |}, w)
  /\ (forall r', rejection_detail r' = rejection_detail r -> r' = r).
Proof.
  intros Hrej.
  assert (Hraise : stripe_webhook E payload stripe_signature w
    = (Raise (HTTPException HTTP_400_BAD_REQUEST (rejection_detail r)), w)).
  { unfold webhook_rejection in Hrej. unfold stripe_webhook.
    destruct stripe_signature as [sig|]; [| by injection Hrej as <-].
    destruct (is_empty sig); [by injection Hrej as <- |].
    unfold bind, try_except, Webhook_construct_event.
    destruct (stripe_Webhook_construct_event E payload sig _);
      [discriminate | by injection Hrej as <- ..]. }
  split; [exact Hraise |]. split.
  - cbn [handle]. unfold respond. by rewrite Hraise.
  - intros r'. by destruct r, r'.
Qed.

Lemma mark_order_paid_malformed s w :
  UUID_parse E s = None ->
  mark_order_paid E s w
  = (Ok tt, add_stdout ("Warning: Invalid order_id in payment metadata: " ++ s) w).
Proof.
  intros Hparse. unfold mark_order_paid, try_except, bind, UUID_of_str.
  by rewrite Hparse.
Qed.

Lemma mark_order_paid_absent s oid w :
  UUID_parse E s = Some oid -> running w ->
  firestore w !! uuid_str E oid = None ->
  mark_order_paid E s w
  = (Ok tt,
     add_stdout ("Warning: Order " ++ uuid_str E oid
                 ++ " not found for payment update")
       (after_read (DocGet (uuid_str E oid)) w)).
Proof.
  intros Hparse Hrun Hdoc.
  destruct (get_database_adapter_running w Hrun) as (a & c & Hget & Hdb).
  unfold mark_order_paid, try_except, UUID_of_str. rewrite Hparse.
  rewrite (bind_Ok _ _ w oid w eq_refl), (bind_Ok _ _ _ _ _ Hget).
  by rewrite (bind_Ok _ _ _ _ _
                (update_order_payment_status_absent a c oid _ w Hdb Hdoc)).
Qed.

(** C7: a verified [payment_intent.succeeded] event whose [order_id]
    metadata is missing, malformed, or refers to an order that is not
    stored, is acknowledged with success, and the store is unchanged. *)
Theorem stripe_webhook_acknowledges_unusable_order_id
    (payload sig : string) (event : StripeEvent) (w : World) :
  is_empty sig = false ->
  stripe_Webhook_construct_event E payload sig
    (stripe_webhook_secret (settings E)) = EventOk event ->
  event_type event = "payment_intent.succeeded" ->
  match order_reference E event with
  | NoOrderId | MalformedOrderId _ => True
  | OrderId oid => running w /\ firestore w !! uuid_str E oid = None
  end ->
  fst (handle E (POST_payments_webhook (Some sig) payload) w)
  = {| response_status := HTTP_200_OK; response_body := StatusBody "success" |}
  /\ firestore (snd (handle E (POST_payments_webhook (Some sig) payload) w))
     = firestore w.
Proof.
  intros Hsig Hevent Htype Href.
  assert (Hweb : exists w',
    stripe_webhook E payload (Some sig) w = (Ok "success", w')
    /\ firestore w' = firestore w).
  { unfold stripe_webhook. rewrite Hsig.
    rewrite (bind_Ok _ _ w event w)
      by (unfold try_except, Webhook_construct_event; by rewrite Hevent).
    rewrite decide_True by done.
    unfold order_reference in Href.
    destruct (metadata_order_id event) as [s|]; [| by eexists].
    destruct (is_empty s); [by eexists |].
    destruct (UUID_parse E s) as [oid|] eqn:Hparse.
    - destruct Href as [Hrun Hdoc].
      rewrite (bind_Ok _ _ _ _ _
                 (mark_order_paid_absent s oid w Hparse Hrun Hdoc)).
      by eexists.
    - rewrite (bind_Ok _ _ _ _ _ (mark_order_paid_malformed s w Hparse)).
      by eexists. }
  destruct Hweb as (w' & Hweb & Hstore).
  cbn [handle]. unfold respond. by rewrite Hweb.
Qed.

(** ** Admin access control *)

Lemma verify_admin_key_rejects key w :
  key <> Some (admin_api_key (settings E)) ->
  exists detail,
    verify_admin_key E key w
    = (Raise (HTTPException HTTP_403_FORBIDDEN detail), w).
Proof.
  intros Hkey. unfold verify_admin_key, api_key_header, bind.
  destruct key as [k|]; [| by eexists].
  destruct (is_empty k); [by eexists |].
  cbn [ret]. rewrite decide_True by congruence. by eexists.
Qed.

(** C8: a request to an admin-prefixed operation whose token is absent or
    differs from the configured secret is answered with a forbidden error
    (status 403), and the world is exactly as before: no service logic ran
    and the store was not accessed. *)
Theorem admin_operations_reject_bad_token
    (r : Request) (key : option string) (w : World) :
  admin_token r = Some key ->
  key <> Some (admin_api_key (settings E)) ->
  exists detail,
    handle E r w
    = ({| response_status := HTTP_403_FORBIDDEN;
          response_body := DetailBody detail |}, w).
Proof.
  intros Hadmin Hkey.
  destruct (verify_admin_key_rejects key w Hkey) as (detail & Hverify).
  exists detail.
  destruct r; simplify_eq/=;
    unfold respond, with_dependency;
    by rewrite (bind_Raise _ _ _ _ _ Hverify).
Qed.

(** ** The payment status over a run *)

(** An [update] that does not touch the payment status, or sets it to
    Completed, keeps [advanced]. *)
Lemma preserves_doc_update_advanced doc_id0 d0 doc_id fields :
  fields !! "payment_status" = None
  \/ fields !! "payment_status" = Some completed_token ->
  preserves (of_store (advanced doc_id0 d0)) (doc_update doc_id fields).
Proof.
  intros Hfields w (d1 & Hd1 & Hpay). unfold doc_update, of_store.
  destruct (firestore w !! doc_id) as [d|] eqn:Hdoc; cbn [snd firestore db_access];
    [| by exists d1].
  destruct (decide (doc_id = doc_id0)) as [->|Hne].
  - exists (fields ∪ d). rewrite lookup_insert_eq. split; [done |].
    assert (d = d1) as -> by congruence.
    destruct Hfields as [Hnone|Hsome].
    + by rewrite (lookup_union_r _ _ _ Hnone).
    + right. by apply lookup_union_Some_l.
  - exists d1. by rewrite lookup_insert_ne.
Qed.

Section Advanced.

Context (doc_id0 : string) (d0 : Doc).
Local Abbreviation I := (of_store (advanced doc_id0 d0)).

Lemma preserves_update_order_payment_status_COMPLETED self oid :
  preserves I (update_order_payment_status E self oid PaymentStatus.COMPLETED).
Proof.
  unfold update_order_payment_status. frame_steps.
  - apply preserves_require_db.
  - apply preserves_doc_get.
  - step_match; frame_steps.
    + apply preserves_utcnow_call.
    + apply preserves_doc_update_advanced. by right.
    + apply preserves_read_back.
Qed.

Lemma preserves_update_order_status self oid status :
  preserves I (update_order_status E self oid status).
Proof.
  unfold update_order_status. frame_steps.
  - apply preserves_require_db.
  - apply preserves_doc_get.
  - step_match; frame_steps.
    + apply preserves_utcnow_call.
    + apply preserves_doc_update_advanced. by left.
    + apply preserves_read_back.
Qed.

Lemma preserves_verify_admin_key key : preserves I (verify_admin_key E key).
Proof.
  unfold verify_admin_key, api_key_header. frame_steps.
  - repeat step_match; frame_steps.
  - step_match; frame_steps.
Qed.

Lemma preserves_get_order_by_id oid : preserves I (get_order_by_id E oid).
Proof.
  unfold get_order_by_id. frame_steps.
  - apply preserves_get_database_adapter.
  - apply preserves_get_order.
  - step_match; frame_steps.
Qed.

Lemma preserves_get_order_details oid : preserves I (get_order_details E oid).
Proof.
  unfold get_order_details. frame_steps.
  - apply preserves_get_database_adapter.
  - apply preserves_get_order.
  - step_match; frame_steps.
Qed.

Lemma preserves_list_all_orders : preserves I (list_all_orders E).
Proof.
  unfold list_all_orders. frame_steps.
  - apply preserves_get_database_adapter.
  - apply preserves_get_all_orders.
Qed.

Lemma preserves_update_order_processing_status oid status_update :
  preserves I (update_order_processing_status E oid status_update).
Proof.
  unfold update_order_processing_status. frame_steps.
  - apply preserves_get_database_adapter.
  - apply preserves_get_order.
  - step_match; frame_steps.
    + apply preserves_update_order_status.
    + step_match; frame_steps.
Qed.

Lemma preserves_create_payment_intent payment_data :
  preserves I (create_payment_intent E payment_data).
Proof.
  unfold create_payment_intent. frame_steps.
  - apply preserves_get_database_adapter.
  - apply preserves_get_order.
  - repeat step_match; frame_steps.
    apply preserves_try_except.
    + frame_steps. apply preserves_PaymentIntent_create.
    + repeat constructor. intros e. cbn [snd]. frame_steps.
Qed.

Lemma preserves_mark_order_paid order_id_str :
  preserves I (mark_order_paid E order_id_str).
Proof.
  unfold mark_order_paid. apply preserves_try_except.
  - frame_steps.
    + apply preserves_UUID_of_str.
    + apply preserves_get_database_adapter.
    + apply preserves_update_order_payment_status_COMPLETED.
    + step_match; frame_steps. apply preserves_print.
  - repeat constructor. intros e. cbn [snd]. apply preserves_print.
Qed.

Lemma preserves_stripe_webhook payload stripe_signature :
  preserves I (stripe_webhook E payload stripe_signature).
Proof.
  unfold stripe_webhook. repeat step_match; frame_steps.
  - apply preserves_try_except.
    + apply preserves_Webhook_construct_event.
    + repeat constructor; intros e; cbn [snd]; frame_steps.
  - repeat step_match; frame_steps. apply preserves_mark_order_paid.
Qed.

Lemma respond_keeps {A} success (to_body : A -> Body) (endpoint : M A) w :
  preserves I endpoint -> I w -> I (snd (respond success to_body endpoint w)).
Proof.
  intros Hend Hw. specialize (Hend w Hw). unfold respond.
  destruct (endpoint w) as [[a|e] w']; [done |]. by destruct e.
Qed.

Lemma handle_keeps r w : I w -> I (snd (handle E r w)).
Proof.
  intros Hw. destruct r; cbn [handle];
    try (apply respond_keeps; [| done]).
  - destruct (OrderCreate_valid body); [| done].
    apply respond_keeps; [apply preserves_submit_order | done].
  - apply preserves_get_order_by_id.
  - unfold with_dependency. frame_steps;
      [apply preserves_verify_admin_key | apply preserves_list_all_orders].
  - unfold with_dependency. frame_steps;
      [apply preserves_verify_admin_key
      | apply preserves_update_order_processing_status].
  - unfold with_dependency. frame_steps;
      [apply preserves_verify_admin_key | apply preserves_get_order_details].
  - destruct (PaymentIntent_valid body); [| done].
    apply respond_keeps; [apply preserves_create_payment_intent | done].
  - apply preserves_stripe_webhook.
  - frame_steps.
  - frame_steps.
Qed.

Lemma serve_keeps rs w : I w -> I (snd (serve E rs w)).
Proof.
  revert w. induction rs as [|r rs IH]; intros w Hw; [done |].
  cbn [serve]. pose proof (handle_keeps r w Hw) as H1.
  destruct (handle E r w) as [resp w1]. specialize (IH w1 H1).
  by destruct (serve E rs w1) as [resps w2].
Qed.

End Advanced.

(** C10: under every sequence of API requests, an order that is stored
    stays stored, and its payment status either is what it was or has
    become Completed; in particular an order whose payment status is
    Completed keeps it. *)
Theorem payment_status_is_monotone
    (rs : list Request) (w : World) (doc_id : string) (d : Doc) :
  firestore w !! doc_id = Some d ->
  exists d',
    firestore (snd (serve E rs w)) !! doc_id = Some d'
    /\ (d' !! "payment_status" = d !! "payment_status"
        \/ d' !! "payment_status" = Some completed_token)
    /\ (d !! "payment_status" = Some completed_token ->
        d' !! "payment_status" = Some completed_token).
Proof.
  intros Hdoc.
  destruct (serve_keeps doc_id d rs w) as (d' & Hd' & Hpay).
  { exists d. by split; [| left]. }
  exists d'. split; [done |]. split; [done |].
  intros Hdone. destruct Hpay as [-> | ->]; done.
Qed.

End Properties.

(** * The program on explicit inputs *)

Lemma Fixture_world_running docs : running (Fixture.world docs).
Proof. by exists Fixture.ready, Fixture.client. Qed.

(** A valid request with one bouquet is answered with an internal server
    error. *)
Lemma submit_order_raises_on_valid_request_witness :
  OrderCreate_valid Fixture.request = true
  /\ fst (submit_order (Fixture.env Fixture.ticking) Fixture.request
            (Fixture.world ∅))
     = Raise (ValidationError "Order"
                [("buyer_email", missing); ("buyer_phone", missing)])
  /\ fst (handle (Fixture.env Fixture.ticking) (POST_orders Fixture.request)
            (Fixture.world ∅))
     = {| response_status := 500; response_body := InternalServerErrorBody |}
  /\ firestore (snd (handle (Fixture.env Fixture.ticking)
                       (POST_orders Fixture.request) (Fixture.world ∅)))
     = ∅.
Proof.
  split; [reflexivity |].
  exact (submit_order_raises_on_valid_request (Fixture.env Fixture.ticking)
           Fixture.request (Fixture.world ∅) eq_refl).
Defined.

(** A stored order cannot be read back. *)
Lemma get_order_after_create_order_raises_witness :
  db Fixture.ready = Some Fixture.client
  /\ let E := Fixture.env Fixture.ticking in
     let w1 := snd (create_order E Fixture.ready Fixture.new_order
                      (Fixture.world ∅)) in
     firestore w1 !! uuid_str E 7%N = Some (_order_to_dict E Fixture.new_order)
     /\ _order_to_dict E Fixture.new_order !! "buyer_email" = None
     /\ _order_to_dict E Fixture.new_order !! "buyer_phone" = None
     /\ exists e, fst (get_order E Fixture.ready 7%N w1) = Raise e /\ internal e.
Proof.
  split; [reflexivity |].
  exact (get_order_after_create_order_raises (Fixture.env Fixture.ticking)
           Fixture.ready Fixture.client Fixture.new_order (Fixture.world ∅)
           eq_refl).
Defined.

(** The exception [get_order] raises on the stored order. *)
Example get_order_stored_example :
  let E := Fixture.env Fixture.ticking in
  fst (get_order E Fixture.ready 7%N
         (Fixture.world (Fixture.store_of Fixture.new_order)))
  = Raise (ValidationError "Order"
             [("buyer_email", missing); ("buyer_phone", missing)]).
Proof. vm_compute. reflexivity. Qed.

(** Marking a stored order paid, with a clock that has advanced. *)
Lemma update_order_payment_status_frame_witness :
  db Fixture.ready = Some Fixture.client
  /\ let E := Fixture.env Fixture.ticking in
     let w := Fixture.world (Fixture.store_of Fixture.new_order) in
     let d := _order_to_dict E Fixture.new_order in
     let result :=
       update_order_payment_status E Fixture.ready 7%N PaymentStatus.COMPLETED w in
     exists d',
       firestore (snd result) !! uuid_str E 7%N = Some d'
       /\ d' !! "payment_status" = Some (VStr "Completed")
       /\ d' !! "updated_at" = Some (VTime 2000)
       /\ (forall key, key <> "payment_status" -> key <> "updated_at" ->
             d' !! key = d !! key)
       /\ (forall other, other <> uuid_str E 7%N ->
             firestore (snd result) !! other = firestore w !! other)
       /\ (forall tc, d !! "created_at" = Some (VTime tc) -> tc < 2000 ->
             updated_after_created d').
Proof.
  split; [reflexivity |].
  exact (update_order_payment_status_frame (Fixture.env Fixture.ticking)
           Fixture.ready Fixture.client 7%N PaymentStatus.COMPLETED
           (Fixture.world (Fixture.store_of Fixture.new_order)) eq_refl).
Defined.

(** C3 as stated fails: an order created at time 1000 and marked paid while
    the clock still reads 1000 has an updated timestamp that is not
    strictly later than its creation timestamp. *)
Lemma update_order_payment_status_not_strictly_later :
  let E := Fixture.env Fixture.coarse in
  let w := Fixture.world (Fixture.store_of Fixture.new_order) in
  let result :=
    update_order_payment_status E Fixture.ready 7%N PaymentStatus.COMPLETED w in
  exists d',
    firestore (snd result) !! uuid_str E 7%N = Some d'
    /\ d' !! "payment_status" = Some (VStr "Completed")
    /\ d' !! "created_at" = Some (VTime 1000)
    /\ d' !! "updated_at" = Some (VTime 1000)
    /\ ~ updated_after_created d'.
Proof.
  cbv zeta.
  set (E := Fixture.env Fixture.coarse).
  set (d := _order_to_dict E Fixture.new_order).
  destruct (update_order_payment_status_stored E Fixture.ready Fixture.client
              7%N PaymentStatus.COMPLETED
              (Fixture.world (Fixture.store_of Fixture.new_order)) d
              eq_refl eq_refl)
    as (e & w' & -> & _ & Hstore).
  destruct (payment_fields_union PaymentStatus.COMPLETED 1000 d)
    as (Hpay & Hupd & Hrest).
  exists (payment_fields PaymentStatus.COMPLETED 1000 ∪ d).
  cbn [snd]. rewrite Hstore.
  split; [apply lookup_insert_eq |].
  split; [exact Hpay |].
  assert (Hcreated : (payment_fields PaymentStatus.COMPLETED 1000 ∪ d)
            !! "created_at" = Some (VTime 1000)).
  { rewrite Hrest by done. reflexivity. }
  split; [exact Hcreated |]. split; [exact Hupd |].
  intros (tc & tu & Hc & Hu & Hlt).
  rewrite Hcreated in Hc. rewrite Hupd in Hu.
  injection Hc as <-. injection Hu as <-. by vm_compute in Hlt.
Qed.

(** The admin status update on a stored order. *)
Lemma update_order_processing_status_never_updates_witness :
  running (Fixture.world (Fixture.store_of Fixture.new_order))
  /\ let E := Fixture.env Fixture.ticking in
     let w := Fixture.world (Fixture.store_of Fixture.new_order) in
     let result :=
       update_order_processing_status E 7%N
         {| su_order_status := OrderStatus.IN_PROGRESS |} w in
     (exists e, fst result = Raise e /\ internal e)
     /\ firestore (snd result) = firestore w.
Proof.
  split; [apply Fixture_world_running |].
  exact (update_order_processing_status_never_updates
           (Fixture.env Fixture.ticking) 7%N
           {| su_order_status := OrderStatus.IN_PROGRESS |}
           (Fixture.world (Fixture.store_of Fixture.new_order))
           (Fixture_world_running _)).
Defined.

(** With the admin key, the request to set the stored order In Progress is
    answered with an internal server error and the stored order status
    stays Not Started. *)
Example PATCH_status_on_stored_order_example :
  let E := Fixture.env Fixture.ticking in
  let w := Fixture.world (Fixture.store_of Fixture.new_order) in
  let result :=
    handle E (PATCH_manage_orders_id_status (Some "admin-secret") 7%N
                {| su_order_status := OrderStatus.IN_PROGRESS |}) w in
  fst result
  = {| response_status := 500; response_body := InternalServerErrorBody |}
  /\ (d ← firestore (snd result) !! uuid_str E 7%N; d !! "order_status")
     = Some (VStr "Not Started").
Proof. vm_compute. by split. Qed.

(** A payment intent for a stored, paid order. *)
Lemma create_payment_intent_on_stored_order_witness :
  running (Fixture.world (Fixture.store_of Fixture.paid_order))
  /\ let E := Fixture.env Fixture.ticking in
     let w := Fixture.world (Fixture.store_of Fixture.paid_order) in
     let result :=
       create_payment_intent E
         {| pi_order_id := 7%N; pi_amount := 5000; pi_currency := "usd" |} w in
     (exists e, fst result = Raise e /\ internal e)
     /\ stripe_calls (snd result) = stripe_calls w.
Proof.
  split; [apply Fixture_world_running |].
  exact (create_payment_intent_on_stored_order (Fixture.env Fixture.ticking)
           {| pi_order_id := 7%N; pi_amount := 5000; pi_currency := "usd" |}
           (Fixture.world (Fixture.store_of Fixture.paid_order))
           (Fixture_world_running _)).
Defined.

(** The request for a payment intent on the paid order is answered with an
    internal server error, not with the conflict error. *)
Example POST_create_payment_intent_on_paid_order_example :
  let E := Fixture.env Fixture.ticking in
  let w := Fixture.world (Fixture.store_of Fixture.paid_order) in
  fst (handle E (POST_payments_create_payment_intent
                   {| pi_order_id := 7%N; pi_amount := 5000;
                      pi_currency := "usd" |}) w)
  = {| response_status := 500; response_body := InternalServerErrorBody |}.
Proof. vm_compute. reflexivity. Qed.

(** Listing a store that holds one order. *)
Lemma get_all_orders_raises_on_stored_orders_witness :
  db Fixture.ready = Some Fixture.client
  /\ let E := Fixture.env Fixture.ticking in
     let w := Fixture.world (Fixture.store_of Fixture.new_order) in
     (firestore w = ∅ -> fst (get_all_orders E Fixture.ready w) = Ok [])
     /\ (firestore w <> ∅ ->
         exists e, fst (get_all_orders E Fixture.ready w) = Raise e /\ internal e).
Proof.
  split; [reflexivity |].
  exact (get_all_orders_raises_on_stored_orders (Fixture.env Fixture.ticking)
           Fixture.ready Fixture.client
           (Fixture.world (Fixture.store_of Fixture.new_order)) eq_refl).
Defined.

Example GET_manage_orders_on_stored_order_example :
  let E := Fixture.env Fixture.ticking in
  let w := Fixture.world (Fixture.store_of Fixture.new_order) in
  fst (get_all_orders E Fixture.ready w)
  = Raise (ValidationError "Order"
             [("buyer_email", missing); ("buyer_phone", missing)])
  /\ fst (handle E (GET_manage_orders (Some "admin-secret")) w)
     = {| response_status := 500; response_body := InternalServerErrorBody |}.
Proof. vm_compute. by split. Qed.

(** The three rejections of the webhook, before start-up: the adapter does
    not exist yet, and the answer is the client error all the same. *)
Lemma stripe_webhook_rejects_before_storage_witness :
  let E := Fixture.env Fixture.ticking in
  (webhook_rejection E "{}" None = Some MissingSignature
   /\ handle E (POST_payments_webhook None "{}") Fixture.cold
      = ({| response_status := 400;
            response_body := DetailBody "Missing Stripe signature" |},
         Fixture.cold))
  /\ (webhook_rejection E "{}" (Some "t=1,v1=garbled") = Some UnverifiablePayload
      /\ handle E (POST_payments_webhook (Some "t=1,v1=garbled") "{}") Fixture.cold
         = ({| response_status := 400;
               response_body := DetailBody "Invalid payload" |},
            Fixture.cold))
  /\ (webhook_rejection E "{}" (Some "t=1,v1=forged") = Some InvalidSignature
      /\ handle E (POST_payments_webhook (Some "t=1,v1=forged") "{}") Fixture.cold
         = ({| response_status := 400;
               response_body := DetailBody "Invalid signature" |},
            Fixture.cold)).
Proof.
  cbv zeta. split; [| split]; (split; [reflexivity |]).
  - exact (proj1 (proj2 (stripe_webhook_rejects_before_storage
             (Fixture.env Fixture.ticking) "{}" None MissingSignature
             Fixture.cold eq_refl))).
  - exact (proj1 (proj2 (stripe_webhook_rejects_before_storage
             (Fixture.env Fixture.ticking) "{}" (Some "t=1,v1=garbled")
             UnverifiablePayload Fixture.cold eq_refl))).
  - exact (proj1 (proj2 (stripe_webhook_rejects_before_storage
             (Fixture.env Fixture.ticking) "{}" (Some "t=1,v1=forged")
             InvalidSignature Fixture.cold eq_refl))).
Defined.

(** A succeeded payment whose order id is empty, malformed, or unknown. *)
Lemma stripe_webhook_acknowledges_unusable_order_id_witness :
  let E := Fixture.env Fixture.ticking in
  let w := Fixture.world (Fixture.store_of Fixture.new_order) in
  let success :=
    {| response_status := 200; response_body := StatusBody "success" |} in
  let unknown := "00000000-0000-0000-0000-000000000009" in
  (fst (handle E (POST_payments_webhook (Some "t=1,v1=good") "") w) = success
   /\ firestore (snd (handle E (POST_payments_webhook (Some "t=1,v1=good") "") w))
      = firestore w)
  /\ (fst (handle E (POST_payments_webhook (Some "t=1,v1=good") "not-a-uuid") w)
      = success
      /\ firestore (snd (handle E (POST_payments_webhook (Some "t=1,v1=good")
                                     "not-a-uuid") w))
         = firestore w)
  /\ (fst (handle E (POST_payments_webhook (Some "t=1,v1=good") unknown) w)
      = success
      /\ firestore (snd (handle E (POST_payments_webhook (Some "t=1,v1=good")
                                     unknown) w))
         = firestore w).
Proof.
  cbv zeta. split; [| split].
  - exact (stripe_webhook_acknowledges_unusable_order_id
             (Fixture.env Fixture.ticking) "" "t=1,v1=good" _
             (Fixture.world (Fixture.store_of Fixture.new_order))
             eq_refl eq_refl eq_refl I).
  - exact (stripe_webhook_acknowledges_unusable_order_id
             (Fixture.env Fixture.ticking) "not-a-uuid" "t=1,v1=good" _
             (Fixture.world (Fixture.store_of Fixture.new_order))
             eq_refl eq_refl eq_refl I).
  - exact (stripe_webhook_acknowledges_unusable_order_id
             (Fixture.env Fixture.ticking)
             "00000000-0000-0000-0000-000000000009" "t=1,v1=good" _
             (Fixture.world (Fixture.store_of Fixture.new_order))
             eq_refl eq_refl eq_refl
             (conj (Fixture_world_running _) eq_refl)).
Defined.

(** Listing without a token, and a status update with a wrong one. *)
Lemma admin_operations_reject_bad_token_witness :
  let E := Fixture.env Fixture.ticking in
  let w := Fixture.world (Fixture.store_of Fixture.new_order) in
  (exists detail,
     handle E (GET_manage_orders None) w
     = ({| response_status := 403; response_body := DetailBody detail |}, w))
  /\ (exists detail,
        handle E (PATCH_manage_orders_id_status (Some "guess") 7%N
                    {| su_order_status := OrderStatus.COMPLETED |}) w
        = ({| response_status := 403; response_body := DetailBody detail |}, w)).
Proof.
  cbv zeta. split.
  - refine (admin_operations_reject_bad_token (Fixture.env Fixture.ticking)
              (GET_manage_orders None) None _ eq_refl _).
    discriminate.
  - refine (admin_operations_reject_bad_token (Fixture.env Fixture.ticking)
              (PATCH_manage_orders_id_status (Some "guess") 7%N
                 {| su_order_status := OrderStatus.COMPLETED |})
              (Some "guess") _ eq_refl _).
    intros H. by injection H.
Defined.

Lemma payment_status_is_monotone_witness :
  let E := Fixture.env Fixture.ticking in
  let w := Fixture.world (Fixture.store_of Fixture.paid_order) in
  let d := _order_to_dict E Fixture.paid_order in
  firestore w !! uuid_str E 7%N = Some d
  /\ exists d',
       firestore (snd (serve E paid_order_run w)) !! uuid_str E 7%N = Some d'
       /\ (d' !! "payment_status" = d !! "payment_status"
           \/ d' !! "payment_status" = Some completed_token)
       /\ (d !! "payment_status" = Some completed_token ->
           d' !! "payment_status" = Some completed_token).
Proof.
  cbv zeta. split; [reflexivity |].
  exact (payment_status_is_monotone (Fixture.env Fixture.ticking)
           paid_order_run (Fixture.world (Fixture.store_of Fixture.paid_order))
           (uuid_str (Fixture.env Fixture.ticking) 7%N)
           (_order_to_dict (Fixture.env Fixture.ticking) Fixture.paid_order)
           eq_refl).
Defined.

(** The confirmation of a stored, unpaid order: the payment status is
    written, reading the order back raises the [ValidationError], which the
    handler's [except ValueError] takes for a malformed order id; the
    processor is told success. *)
Example webhook_on_stored_order_example :
  let E := Fixture.env Fixture.ticking in
  let w := Fixture.world (Fixture.store_of Fixture.new_order) in
  let result :=
    handle E (POST_payments_webhook (Some "t=1,v1=good")
                "00000000-0000-0000-0000-000000000007") w in
  fst result
  = {| response_status := 200; response_body := StatusBody "success" |}
  /\ stored_payment_status E (snd result) 7%N = Some (VStr "Completed")
  /\ stdout (snd result)
     = ["Warning: Invalid order_id in payment metadata: 00000000-0000-0000-0000-000000000007"].
Proof. vm_compute. by repeat split. Qed.

(** * The order of a listing *)

(** [sort_newest_first] is what [get_all_orders] applies to the converted
    orders: a stable sort by creation time, newest first. *)

Lemma insert_newest_first_perm o l :
  Permutation (o :: l) (insert_newest_first o l).
Proof.
  induction l as [|x l IH]; simpl; [done |].
  destruct (created_at x <=? created_at o); [done |].
  rewrite perm_swap. by constructor.
Qed.

Lemma sort_newest_first_perm l : Permutation l (sort_newest_first l).
Proof.
  induction l as [|o l IH]; simpl; [done |].
  rewrite <- insert_newest_first_perm. by constructor.
Qed.

Lemma insert_newest_first_hd o l x :
  HdRel newer_or_equal x l -> newer_or_equal x o ->
  HdRel newer_or_equal x (insert_newest_first o l).
Proof.
  intros Hl Ho. destruct l as [|y l]; simpl; [by constructor |].
  destruct (created_at y <=? created_at o); constructor; [done |].
  by inversion Hl.
Qed.

Lemma insert_newest_first_sorted o l :
  Sorted newer_or_equal l -> Sorted newer_or_equal (insert_newest_first o l).
Proof.
  induction 1 as [|x l Hsorted IH Hhd]; simpl.
  - by repeat constructor.
  - destruct (created_at x <=? created_at o) eqn:Hcmp.
    + constructor; [by constructor |]. constructor.
      unfold newer_or_equal. lia.
    + constructor; [exact IH |].
      apply insert_newest_first_hd; [done |]. unfold newer_or_equal. lia.
Qed.

(** The list [get_all_orders] would return is sorted by creation time,
    newest first, and holds the orders it was given. *)
Lemma sort_newest_first_sorted l : Sorted newer_or_equal (sort_newest_first l).
Proof.
  induction l as [|o l IH]; simpl; [constructor |].
  by apply insert_newest_first_sorted.
Qed.

(** Orders with the same creation time keep their relative order. *)
Lemma insert_newest_first_stable o l :
  Forall (fun x => created_at x <= created_at o) l ->
  insert_newest_first o l = o :: l.
Proof.
  intros Hall. destruct Hall as [|x l Hx _]; simpl; [done |].
  destruct (created_at x <=? created_at o) eqn:Hcmp; [done | lia].
Qed.

(** * Further properties of the program *)

Section Coverage.

Context (E : Environment).

(** ** The adapter before and after [initialize()] *)

(** X1: an adapter that was not initialised refuses every operation with
    the same [RuntimeError], and the world, the Firestore call trace
    included, is as before. *)
Theorem adapter_methods_need_initialize (self : FirestoreAdapter) (w : World) :
  db self = None ->
  (forall order, create_order E self order w = (Raise not_ready, w))
  /\ (forall oid, get_order E self oid w = (Raise not_ready, w))
  /\ get_all_orders E self w = (Raise not_ready, w)
  /\ (forall oid status,
        update_order_payment_status E self oid status w = (Raise not_ready, w))
  /\ (forall oid status,
        update_order_status E self oid status w = (Raise not_ready, w)).
Proof.
  intros Hdb.
  assert (Hreq : require_db self w = (Raise not_ready, w)).
  { unfold require_db. by rewrite Hdb. }
  repeat split; intros;
    [ unfold create_order | unfold get_order | unfold get_all_orders
    | unfold update_order_payment_status | unfold update_order_status ];
    exact (bind_Raise _ _ _ _ _ Hreq).
Qed.

(** X2: on an initialised adapter [create_order] returns the order it was
    given and stores its document under the order's id, replacing whatever
    was stored there; every other document is untouched and the only
    Firestore call is the [set]. *)
Theorem create_order_replaces_document
    (self : FirestoreAdapter) (c : AsyncClient) (order : Order) (w : World) :
  db self = Some c ->
  let result := create_order E self order w in
  let doc_id := uuid_str E (order_id order) in
  fst result = Ok order
  /\ firestore (snd result) !! doc_id = Some (_order_to_dict E order)
  /\ (forall other, other <> doc_id ->
        firestore (snd result) !! other = firestore w !! other)
  /\ db_trace (snd result) = (db_trace w ++ [DocSet doc_id])%list.
Proof.
  intros Hdb result doc_id. subst result doc_id.
  rewrite (create_order_ready E _ _ _ _ Hdb). cbn [fst snd firestore db_trace db_access].
  split; [done |]. split; [apply lookup_insert_eq |]. split; [| done].
  intros other Hother. by rewrite lookup_insert_ne.
Qed.

(** ** Status tokens *)

(** X3: each enumeration is looked up by exactly the tokens its members
    carry: the token of a member finds that member, and no other string
    finds it. *)
Theorem tokens_round_trip :
  (forall p v, PaymentStatus.of_value v = Some p <-> v = PaymentStatus.value p)
  /\ (forall s v, OrderStatus.of_value v = Some s <-> v = OrderStatus.value s)
  /\ (forall b v, BouquetSize.of_value v = Some b <-> v = BouquetSize.value b).
Proof.
  split; [| split].
  - intros p v. unfold PaymentStatus.of_value. split.
    + repeat case_decide; subst; by intros [= <-].
    + intros ->. by destruct p.
  - intros s v. unfold OrderStatus.of_value. split.
    + repeat case_decide; subst; by intros [= <-].
    + intros ->. by destruct s.
  - intros b v. unfold BouquetSize.of_value. split.
    + repeat case_decide; subst; by intros [= <-].
    + intros ->. by destruct b.
Qed.

(** ** Endpoints on ids that are not stored, and before start-up *)

(** X4: while the application runs, fetching an order id that is not
    stored is answered not-found (status 404) with the id in the detail;
    the store is read once and not changed. *)
Theorem get_order_by_id_unknown (oid : UUID) (w : World) :
  running w ->
  firestore w !! uuid_str E oid = None ->
  handle E (GET_orders_id oid) w
  = ({| response_status := HTTP_404_NOT_FOUND;
        response_body :=
          DetailBody ("Order with ID " ++ uuid_str E oid ++ " not found") |},
     after_read (DocGet (uuid_str E oid)) w).
Proof.
  intros Hrun Hdoc.
  destruct (get_database_adapter_running w Hrun) as (a & c & Hget & Hdb).
  cbn [handle]. unfold respond, get_order_by_id.
  rewrite (bind_Ok _ _ _ _ _ Hget).
  by rewrite (bind_Ok _ _ _ _ _ (get_order_absent E a c oid w Hdb Hdoc)).
Qed.

(** X5: before [initialize_database()] every endpoint that needs the store
    raises the factory's [RuntimeError] without touching the world, so the
    framework answers with an internal server error. *)
Theorem endpoints_need_initialize_database (w : World) :
  _db_adapter w = None ->
  (forall oid, get_order_by_id E oid w = (Raise not_initialized, w))
  /\ list_all_orders E w = (Raise not_initialized, w)
  /\ (forall oid, get_order_details E oid w = (Raise not_initialized, w))
  /\ (forall oid body,
        update_order_processing_status E oid body w = (Raise not_initialized, w))
  /\ (forall body, create_payment_intent E body w = (Raise not_initialized, w))
  /\ (forall oid,
        handle E (GET_orders_id oid) w
        = ({| response_status := HTTP_500_INTERNAL_SERVER_ERROR;
              response_body := InternalServerErrorBody |}, w)).
Proof.
  intros Hnone.
  assert (Hget : get_database_adapter w = (Raise not_initialized, w)).
  { unfold get_database_adapter. by rewrite Hnone. }
  assert (Hfetch : forall oid, get_order_by_id E oid w = (Raise not_initialized, w)).
  { intros oid. exact (bind_Raise _ _ _ _ _ Hget). }
  split; [exact Hfetch |].
  repeat split; intros;
    try exact (bind_Raise _ _ _ _ _ Hget).
  cbn [handle]. unfold respond. by rewrite Hfetch.
Qed.

(** ** The admin key *)

(** X6: a non-empty token equal to the configured secret passes
    [verify_admin_key] without touching the world, and the admin view of an
    order is then answered exactly as the public one. *)
Theorem admin_key_opens_admin_view (key : string) (oid : UUID) (w : World) :
  is_empty key = false ->
  key = admin_api_key (settings E) ->
  verify_admin_key E (Some key) w = (Ok key, w)
  /\ handle E (GET_manage_orders_id (Some key) oid) w
     = handle E (GET_orders_id oid) w.
Proof.
  intros Hkey Heq.
  assert (Hverify : verify_admin_key E (Some key) w = (Ok key, w)).
  { unfold verify_admin_key, api_key_header, bind. rewrite Hkey. cbn [ret].
    by rewrite decide_False by (intros H; by apply H). }
  split; [exact Hverify |].
  cbn [handle]. unfold respond, with_dependency.
  by rewrite (bind_Ok _ _ _ _ _ Hverify).
Qed.

(** ** The factory *)

(** X7: with a database type other than firestore, [initialize_database]
    raises a [ValueError] that names the type and leaves the world, the
    adapter global included, as it was. *)
Theorem initialize_database_unknown_type (w : World) :
  database_type (settings E) <> "firestore" ->
  initialize_database E w
  = (Raise (ValueError ("Unknown database type: " ++ database_type (settings E))),
     w).
Proof.
  intros Htype. unfold initialize_database. by rewrite decide_False.
Qed.


(** ** Documents and the models they are read into *)

Lemma round_trips_parse u :
  round_trips E u = true -> UUID_parse E (uuid_str E u) = Some u.
Proof.
  unfold round_trips. destruct (UUID_parse E (uuid_str E u)) as [u'|]; [| done].
  by intros ->%N.eqb_eq.
Qed.

Lemma UUID_of_round_trips u w :
  round_trips E u = true -> UUID_of E (VStr (uuid_str E u)) w = (Ok u, w).
Proof.
  intros H. unfold UUID_of, UUID_of_str. by rewrite (round_trips_parse u H).
Qed.

Lemma Item_init_stored item w :
  Item_ok item = true ->
  Item_init E {| arg_main_colours := Some (VList (VStr <$> main_colours item));
                 arg_size := Some (VStr (BouquetSize.value (size item)));
                 arg_comments := Some (from_option VStr VNone (comments item));
                 arg_item_id := Some (item_id item);
                 arg_item_created_at := Some (VTime (item_created_at item)) |} w
  = (Ok item, w).
Proof.
  unfold Item_ok. intros [Hlen Hcom]%andb_prop.
  unfold Item_init, bind.
  cbn [arg_main_colours arg_size arg_comments arg_item_id arg_item_created_at].
  rewrite (check_main_colours_dump _ Hlen), check_size_value,
    (check_comments_dump _ Hcom).
  by destruct item.
Qed.

Lemma item_of_dict_written item w :
  round_trips E (item_id item) = true -> Item_ok item = true ->
  item_of_dict E (item_to_dict E item) w = (Ok item, w).
Proof.
  intros Hid Hok. unfold item_of_dict.
  rewrite (bind_Ok (subscript (item_to_dict E item) "item_id") _
             w (VStr (uuid_str E (item_id item))) w eq_refl).
  rewrite (bind_Ok _ _ _ _ _ (UUID_of_round_trips (item_id item) w Hid)).
  rewrite (bind_Ok (subscript (item_to_dict E item) "main_colours") _
             w (VList (VStr <$> main_colours item)) w eq_refl).
  rewrite (bind_Ok (subscript (item_to_dict E item) "size") _
             w (VStr (BouquetSize.value (size item))) w eq_refl).
  rewrite (bind_Ok (get_or_None (item_to_dict E item) "comments") _
             w (from_option VStr VNone (comments item)) w eq_refl).
  rewrite (bind_Ok (subscript (item_to_dict E item) "created_at") _
             w (VTime (item_created_at item)) w eq_refl).
  by apply Item_init_stored.
Qed.

Lemma for_each_item_of_dict_written its w :
  forallb (fun item => round_trips E (item_id item)) its = true ->
  forallb Item_ok its = true ->
  for_each (item_of_dict E) (item_to_dict E <$> its) w = (Ok its, w).
Proof.
  induction its as [|item its IH]; intros Hids Hall; [done |].
  apply andb_prop in Hids as [Hid Hids]. apply andb_prop in Hall as [Hitem Hits].
  rewrite fmap_cons. cbn [for_each].
  rewrite (bind_Ok _ _ _ _ _ (item_of_dict_written item w Hid Hitem)).
  by rewrite (bind_Ok _ _ _ _ _ (IH Hids Hits)).
Qed.

(** X9: the items of a written order survive the round trip through the
    document: the ["items"] field of [_order_to_dict order], read the way
    [_dict_to_order] reads it, gives back the order's items, in order, and
    the world is untouched. *)
Theorem stored_items_round_trip (order : Order) (w : World) :
  ids_round_trip E order = true ->
  forallb Item_ok (items order) = true ->
  bind (getitem (_order_to_dict E order) "items")
    (fun v_items => bind (iterate v_items) (for_each (item_of_dict E))) w
  = (Ok (items order), w).
Proof.
  unfold ids_round_trip. intros [_ Hids]%andb_prop Hitems.
  rewrite (bind_Ok (getitem (_order_to_dict E order) "items") _
             w (VList (item_to_dict E <$> items order)) w eq_refl).
  rewrite (bind_Ok (iterate (VList (item_to_dict E <$> items order))) _
             w (item_to_dict E <$> items order) w eq_refl).
  by apply for_each_item_of_dict_written.
Qed.

(** X10: of the five keys of a stored item only ["comments"] is optional:
    an item document without it reads as an item without comments, while an
    item document without one of the other four keys raises [KeyError] on
    that key. *)
Theorem item_of_dict_missing_key (item : Item) (w : World) :
  round_trips E (item_id item) = true ->
  Item_ok item = true ->
  item_of_dict E (VDict (delete "comments" (item_doc E item))) w
  = (Ok (without_comments item), w)
  /\ Forall
       (fun key =>
          item_of_dict E (VDict (delete key (item_doc E item))) w
          = (Raise (KeyError key), w))
       ["item_id"; "main_colours"; "size"; "created_at"].
Proof.
  intros Hid Hok. split.
  - unfold item_of_dict.
    set (d := VDict (delete "comments" (item_doc E item))).
    rewrite (bind_Ok (subscript d "item_id") _
               w (VStr (uuid_str E (item_id item))) w eq_refl).
    rewrite (bind_Ok _ _ _ _ _ (UUID_of_round_trips (item_id item) w Hid)).
    rewrite (bind_Ok (subscript d "main_colours") _
               w (VList (VStr <$> main_colours item)) w eq_refl).
    rewrite (bind_Ok (subscript d "size") _
               w (VStr (BouquetSize.value (size item))) w eq_refl).
    rewrite (bind_Ok (get_or_None d "comments") _ w VNone w eq_refl).
    rewrite (bind_Ok (subscript d "created_at") _
               w (VTime (item_created_at item)) w eq_refl).
    assert (Hok' : Item_ok (without_comments item) = true).
    { unfold Item_ok in *. apply andb_prop in Hok as [Hlen _].
      cbn [without_comments main_colours comments]. by rewrite Hlen. }
    exact (Item_init_stored (without_comments item) w Hok').
  - constructor; [| constructor; [| constructor; [| constructor; [| constructor]]]];
      unfold item_of_dict.
    + reflexivity.
    + set (d := VDict (delete "main_colours" (item_doc E item))).
      rewrite (bind_Ok (subscript d "item_id") _
                 w (VStr (uuid_str E (item_id item))) w eq_refl).
      by rewrite (bind_Ok _ _ _ _ _ (UUID_of_round_trips (item_id item) w Hid)).
    + set (d := VDict (delete "size" (item_doc E item))).
      rewrite (bind_Ok (subscript d "item_id") _
                 w (VStr (uuid_str E (item_id item))) w eq_refl).
      rewrite (bind_Ok _ _ _ _ _ (UUID_of_round_trips (item_id item) w Hid)).
      by rewrite (bind_Ok (subscript d "main_colours") _
                    w (VList (VStr <$> main_colours item)) w eq_refl).
    + set (d := VDict (delete "created_at" (item_doc E item))).
      rewrite (bind_Ok (subscript d "item_id") _
                 w (VStr (uuid_str E (item_id item))) w eq_refl).
      rewrite (bind_Ok _ _ _ _ _ (UUID_of_round_trips (item_id item) w Hid)).
      rewrite (bind_Ok (subscript d "main_colours") _
                 w (VList (VStr <$> main_colours item)) w eq_refl).
      rewrite (bind_Ok (subscript d "size") _
                 w (VStr (BouquetSize.value (size item))) w eq_refl).
      by rewrite (bind_Ok (get_or_None d "comments") _
                    w (from_option VStr VNone (comments item)) w eq_refl).
Qed.

(** X11: updating the stored document commutes with encoding: the
    document [update] leaves behind is the document of the order with the
    new status and updated timestamp, for the payment status and for the
    order status. *)
Theorem update_fields_commute_with_encoding (order : Order) (now : datetime) :
  (forall status,
     payment_fields status now ∪ _order_to_dict E order
     = _order_to_dict E (with_payment_status status now order))
  /\ (forall status,
        status_fields status now ∪ _order_to_dict E order
        = _order_to_dict E (with_order_status status now order)).
Proof. split; intros status; reflexivity. Qed.

(** ** The order-status update *)

(** The document after [update] with the order-status fields. *)
Lemma status_fields_union status now (d : Doc) :
  (status_fields status now ∪ d) !! "order_status"
  = Some (VStr (OrderStatus.value status))
  /\ (status_fields status now ∪ d) !! "updated_at" = Some (VTime now)
  /\ (forall key, key <> "order_status" -> key <> "updated_at" ->
        (status_fields status now ∪ d) !! key = d !! key).
Proof.
  split; [| split].
  - apply lookup_union_Some_l. by rewrite status_fields_lookup.
  - apply lookup_union_Some_l. by rewrite status_fields_lookup.
  - intros key H1 H2. apply lookup_union_r. rewrite status_fields_lookup.
    by rewrite !decide_False.
Qed.

(** X12: on an initialised adapter [update_order_status] returns [None] for
    an id that is not stored, after one read.  For a stored id it writes
    the order status and the clock reading as updated timestamp, leaves the
    payment status, every other field and every other document as they
    were, and then raises an internal error while reading the order
    back. *)
Theorem update_order_status_frame
    (self : FirestoreAdapter) (c : AsyncClient) (oid : UUID)
    (status : OrderStatus.t) (w : World) :
  db self = Some c ->
  let doc_id := uuid_str E oid in
  let now := utcnow E (ticks w) in
  let result := update_order_status E self oid status w in
  match firestore w !! doc_id with
  | None => result = (Ok None, after_read (DocGet doc_id) w)
  | Some d =>
      (exists e, fst result = Raise e /\ internal e)
      /\ exists d',
           firestore (snd result) !! doc_id = Some d'
           /\ d' !! "order_status" = Some (VStr (OrderStatus.value status))
           /\ d' !! "updated_at" = Some (VTime now)
           /\ d' !! "payment_status" = d !! "payment_status"
           /\ (forall key, key <> "order_status" -> key <> "updated_at" ->
                 d' !! key = d !! key)
           /\ (forall other, other <> doc_id ->
                 firestore (snd result) !! other = firestore w !! other)
  end.
Proof.
  intros Hdb doc_id now result. subst doc_id now result.
  destruct (firestore w !! uuid_str E oid) as [d|] eqn:Hdoc.
  - destruct (update_order_status_stored E self c oid status w d Hdb Hdoc)
      as (e & w' & -> & Hint & Hstore).
    split; [by exists e |].
    exists (status_fields status (utcnow E (ticks w)) ∪ d).
    cbn [snd]. rewrite Hstore.
    destruct (status_fields_union status (utcnow E (ticks w)) d)
      as (Hstatus & Hupd & Hrest).
    split; [apply lookup_insert_eq |].
    split; [exact Hstatus |]. split; [exact Hupd |].
    split; [by apply Hrest |]. split; [exact Hrest |].
    intros other Hother. by rewrite lookup_insert_ne.
  - exact (update_order_status_absent E _ _ _ _ _ Hdb Hdoc).
Qed.

(** ** The webhook on an order that is stored *)

Lemma _dict_to_order_written order w :
  ids_round_trip E order = true ->
  forallb Item_ok (items order) = true ->
  _dict_to_order E (_order_to_dict E order) w = (Raise buyer_fields_missing, w).
Proof.
  unfold ids_round_trip. intros [Hid Hids]%andb_prop Hitems.
  unfold _dict_to_order.
  set (data := _order_to_dict E order).
  rewrite (bind_Ok (getitem data "items") _
             w (VList (item_to_dict E <$> items order)) w eq_refl).
  rewrite (bind_Ok (iterate (VList (item_to_dict E <$> items order))) _
             w (item_to_dict E <$> items order) w eq_refl).
  rewrite (bind_Ok _ _ _ _ _ (for_each_item_of_dict_written _ w Hids Hitems)).
  rewrite (bind_Ok (getitem data "order_id") _
             w (VStr (uuid_str E (order_id order))) w eq_refl).
  rewrite (bind_Ok _ _ _ _ _ (UUID_of_round_trips (order_id order) w Hid)).
  rewrite (bind_Ok (getitem data "buyer_full_name") _
             w (VStr (buyer_full_name order)) w eq_refl).
  rewrite (bind_Ok (getitem data "delivery_address") _
             w (VStr (delivery_address order)) w eq_refl).
  rewrite (bind_Ok (getitem data "payment_status") _
             w (VStr (PaymentStatus.value (payment_status order))) w eq_refl).
  rewrite (bind_Ok _ _ _ _ _ (PaymentStatus_of_value _ w)).
  rewrite (bind_Ok (getitem data "order_status") _
             w (VStr (OrderStatus.value (order_status order))) w eq_refl).
  rewrite (bind_Ok _ _ _ _ _ (OrderStatus_of_value _ w)).
  rewrite (bind_Ok (getitem data "created_at") _
             w (VTime (created_at order)) w eq_refl).
  rewrite (bind_Ok (getitem data "updated_at") _
             w (VTime (updated_at order)) w eq_refl).
  reflexivity.
Qed.

(** Marking a written order paid: the write, then the [ValidationError] of
    the read-back. *)
Lemma update_order_payment_status_written self c order status w :
  db self = Some c ->
  firestore w !! uuid_str E (order_id order) = Some (_order_to_dict E order) ->
  ids_round_trip E order = true ->
  forallb Item_ok (items order) = true ->
  exists w',
    update_order_payment_status E self (order_id order) status w
    = (Raise buyer_fields_missing, w')
    /\ firestore w'
       = <[uuid_str E (order_id order) :=
             _order_to_dict E
               (with_payment_status status (utcnow E (ticks w)) order)]>
           (firestore w)
    /\ stdout w' = stdout w
    /\ stripe_calls w' = stripe_calls w
    /\ _db_adapter w' = _db_adapter w.
Proof.
  intros Hdb Hdoc Hids Hitems. unfold update_order_payment_status.
  rewrite (bind_Ok _ _ w c w (require_db_ready _ _ _ Hdb)).
  unfold bind at 1. unfold doc_get at 1. rewrite Hdoc.
  unfold bind at 1. unfold utcnow_call at 1.
  set (w1 := next_tick (db_access _ _ w)).
  rewrite (bind_Ok _ _ _ _ _
             (doc_update_stored (uuid_str E (order_id order))
                (payment_fields status (utcnow E (ticks w)))
                (_order_to_dict E order) w1 Hdoc)).
  unfold read_back, bind at 1, doc_get.
  cbn [firestore db_access]. rewrite lookup_insert_eq.
  change (payment_fields status (utcnow E (ticks w)) ∪ _order_to_dict E order)
    with (_order_to_dict E
            (with_payment_status status (utcnow E (ticks w)) order)).
  match goal with
  | |- context [bind (_dict_to_order E ?data) ?k ?w2] =>
      rewrite (bind_Raise _ k _ _ _
                 (_dict_to_order_written
                    (with_payment_status status (utcnow E (ticks w)) order)
                    w2 Hids Hitems))
  end.
  eexists. split; [reflexivity |]. by repeat split.
Qed.

(** X13: a verified [payment_intent.succeeded] event whose [order_id]
    names a stored order, written by [create_order], marks the order paid:
    the stored document becomes that of the order with payment status
    Completed and the clock reading as updated timestamp, and the processor
    is told success.  The read-back after the write raises the
    [ValidationError] of the missing buyer fields, which the handler's
    [except ValueError] catches, so the line it prints blames the order
    id. *)
Theorem stripe_webhook_marks_stored_order_paid
    (payload sig order_id_str : string) (event : StripeEvent)
    (order : Order) (w : World) :
  is_empty sig = false ->
  stripe_Webhook_construct_event E payload sig
    (stripe_webhook_secret (settings E)) = EventOk event ->
  event_type event = "payment_intent.succeeded" ->
  metadata_order_id event = Some order_id_str ->
  is_empty order_id_str = false ->
  UUID_parse E order_id_str = Some (order_id order) ->
  running w ->
  firestore w !! uuid_str E (order_id order) = Some (_order_to_dict E order) ->
  ids_round_trip E order = true ->
  forallb Item_ok (items order) = true ->
  let result := handle E (POST_payments_webhook (Some sig) payload) w in
  fst result
  = {| response_status := HTTP_200_OK; response_body := StatusBody "success" |}
  /\ firestore (snd result)
     = <[uuid_str E (order_id order) :=
           _order_to_dict E
             (with_payment_status PaymentStatus.COMPLETED
                (utcnow E (ticks w)) order)]>
         (firestore w)
  /\ stdout (snd result)
     = (stdout w
        ++ [("Warning: Invalid order_id in payment metadata: "
             ++ order_id_str)%string])%list.
Proof.
  intros Hsig Hevent Htype Hmeta Hstr Hparse Hrun Hdoc Hids Hitems result.
  subst result.
  destruct (get_database_adapter_running w Hrun) as (a & c & Hget & Hdb).
  destruct (update_order_payment_status_written a c order
              PaymentStatus.COMPLETED w Hdb Hdoc Hids Hitems)
    as (w' & Hupdate & Hstore & Hout & _).
  assert (Hmark : mark_order_paid E order_id_str w
    = (Ok tt,
       add_stdout ("Warning: Invalid order_id in payment metadata: "
                   ++ order_id_str) w')).
  { unfold mark_order_paid, try_except, UUID_of_str. rewrite Hparse.
    rewrite (bind_Ok _ _ w (order_id order) w eq_refl).
    rewrite (bind_Ok _ _ _ _ _ Hget).
    by rewrite (bind_Raise _ _ _ _ _ Hupdate). }
  assert (Hweb : stripe_webhook E payload (Some sig) w
    = (Ok "success",
       add_stdout ("Warning: Invalid order_id in payment metadata: "
                   ++ order_id_str) w')).
  { unfold stripe_webhook. rewrite Hsig.
    rewrite (bind_Ok _ _ w event w)
      by (unfold try_except, Webhook_construct_event; by rewrite Hevent).
    rewrite decide_True by done. rewrite Hmeta, Hstr.
    by rewrite (bind_Ok _ _ _ _ _ Hmark). }
  cbn [handle]. unfold respond. rewrite Hweb.
  cbn [fst snd firestore stdout add_stdout]. by rewrite Hstore, Hout.
Qed.

(** X23: when the stored document has no ["items"] field, the same event
    is not acknowledged: the payment status is written first, then the
    read-back raises a [KeyError], which [except ValueError] does not
    catch, and the processor gets an internal server error for a payment
    that was recorded. *)
Theorem stripe_webhook_fails_after_the_write
    (payload sig order_id_str : string) (event : StripeEvent)
    (oid : UUID) (d : Doc) (w : World) :
  is_empty sig = false ->
  stripe_Webhook_construct_event E payload sig
    (stripe_webhook_secret (settings E)) = EventOk event ->
  event_type event = "payment_intent.succeeded" ->
  metadata_order_id event = Some order_id_str ->
  is_empty order_id_str = false ->
  UUID_parse E order_id_str = Some oid ->
  running w ->
  firestore w !! uuid_str E oid = Some d ->
  d !! "items" = None ->
  let result := handle E (POST_payments_webhook (Some sig) payload) w in
  let d' := payment_fields PaymentStatus.COMPLETED (utcnow E (ticks w)) ∪ d in
  fst result
  = {| response_status := HTTP_500_INTERNAL_SERVER_ERROR;
       response_body := InternalServerErrorBody |}
  /\ firestore (snd result) = <[uuid_str E oid := d']> (firestore w)
  /\ d' !! "payment_status" = Some completed_token.
Proof.
  intros Hsig Hevent Htype Hmeta Hstr Hparse Hrun Hdoc Hitems result d'.
  subst result d'.
  destruct (get_database_adapter_running w Hrun) as (a & c & Hget & Hdb).
  set (now := utcnow E (ticks w)).
  assert (Hupdate : exists w',
    update_order_payment_status E a oid PaymentStatus.COMPLETED w
    = (Raise (KeyError "items"), w')
    /\ firestore w'
       = <[uuid_str E oid := payment_fields PaymentStatus.COMPLETED now ∪ d]>
           (firestore w)).
  { unfold update_order_payment_status.
    rewrite (bind_Ok _ _ w c w (require_db_ready _ _ _ Hdb)).
    unfold bind at 1. unfold doc_get at 1. rewrite Hdoc.
    unfold bind at 1. unfold utcnow_call at 1.
    set (w1 := next_tick (db_access _ _ w)).
    rewrite (bind_Ok _ _ _ _ _
               (doc_update_stored (uuid_str E oid)
                  (payment_fields PaymentStatus.COMPLETED now) d w1 Hdoc)).
    unfold read_back, bind at 1, doc_get.
    cbn [firestore db_access]. rewrite lookup_insert_eq.
    assert (Hmissing :
      (payment_fields PaymentStatus.COMPLETED now ∪ d) !! "items" = None).
    { destruct (payment_fields_union PaymentStatus.COMPLETED now d)
        as (_ & _ & Hrest).
      by rewrite Hrest. }
    unfold _dict_to_order, getitem at 1. rewrite Hmissing.
    eexists. split; reflexivity. }
  destruct Hupdate as (w' & Hupdate & Hstore).
  assert (Hweb : stripe_webhook E payload (Some sig) w
    = (Raise (KeyError "items"), w')).
  { unfold stripe_webhook. rewrite Hsig.
    rewrite (bind_Ok _ _ w event w)
      by (unfold try_except, Webhook_construct_event; by rewrite Hevent).
    rewrite decide_True by done. rewrite Hmeta, Hstr.
    assert (Hmark : mark_order_paid E order_id_str w
      = (Raise (KeyError "items"), w')).
    { unfold mark_order_paid, try_except, UUID_of_str. rewrite Hparse.
      rewrite (bind_Ok _ _ w oid w eq_refl).
      rewrite (bind_Ok _ _ _ _ _ Hget).
      by rewrite (bind_Raise _ _ _ _ _ Hupdate). }
    by rewrite (bind_Raise _ _ _ _ _ Hmark). }
  cbn [handle]. unfold respond. rewrite Hweb. cbn [fst snd].
  split; [done |]. split; [exact Hstore |].
  by destruct (payment_fields_union PaymentStatus.COMPLETED now d) as (-> & _).
Qed.

(** X14: a verified event of any other type is acknowledged with success
    and nothing else happens: the world is as before. *)
Theorem stripe_webhook_ignores_other_events
    (payload sig : string) (event : StripeEvent) (w : World) :
  is_empty sig = false ->
  stripe_Webhook_construct_event E payload sig
    (stripe_webhook_secret (settings E)) = EventOk event ->
  event_type event <> "payment_intent.succeeded" ->
  handle E (POST_payments_webhook (Some sig) payload) w
  = ({| response_status := HTTP_200_OK; response_body := StatusBody "success" |},
     w).
Proof.
  intros Hsig Hevent Htype.
  cbn [handle]. unfold respond, stripe_webhook. rewrite Hsig.
  rewrite (bind_Ok _ _ w event w)
    by (unfold try_except, Webhook_construct_event; by rewrite Hevent).
  by rewrite decide_False.
Qed.


(** ** What no request does *)

(** The continuation of a computation runs only on the results the
    computation can return. *)
Lemma preserves_bind_only {A B} (I : World -> Prop) (m : M A) (k : A -> M B)
    (Q : A -> Prop) :
  preserves I m ->
  (forall w a, fst (m w) = Ok a -> Q a) ->
  (forall a, Q a -> preserves I (k a)) ->
  preserves I (bind m k).
Proof.
  intros Hm HQ Hk w Hw. unfold bind. specialize (Hm w Hw). specialize (HQ w).
  destruct (m w) as [[a|e] w']; simpl in *; [| done].
  by apply (Hk a (HQ a eq_refl)).
Qed.

Lemma preserves_quiet {A} (I : World -> Prop) (m : M A) :
  quiet m -> preserves I m.
Proof. intros Hq w Hw. by rewrite (proj1 (Hq w)). Qed.

Lemma get_order_returns_None self oid w a :
  fst (get_order E self oid w) = Ok a -> a = None.
Proof.
  intros H. destruct a as [o|]; [| done].
  by destruct (get_order_never_returns E self oid w o).
Qed.

Section Stable.

(** An invariant that the counters, the printed lines and reads of the
    store do not disturb. *)
Context (I : World -> Prop).
Hypothesis I_draw : forall w, I w -> I (next_draw w).
Hypothesis I_tick : forall w, I w -> I (next_tick w).
Hypothesis I_print : forall line w, I w -> I (add_stdout line w).
Hypothesis I_read : forall op w, I w -> I (db_access op (firestore w) w).

Lemma stable_get_database_adapter : preserves I get_database_adapter.
Proof. intros w Hw. unfold get_database_adapter. by destruct (_db_adapter w). Qed.

Lemma stable_require_db self : preserves I (require_db self).
Proof. unfold require_db. destruct (db self); frame_steps. Qed.

Lemma stable_doc_get doc_id : preserves I (doc_get doc_id).
Proof. intros w Hw. by apply I_read. Qed.

Lemma stable_print line : preserves I (print line).
Proof. intros w Hw. by apply I_print. Qed.

Lemma stable_uuid_field arg : preserves I (uuid_field E arg).
Proof. destruct arg; simpl; [frame_steps |]. intros w Hw. by apply I_draw. Qed.

Lemma stable_datetime_field name arg : preserves I (datetime_field E name arg).
Proof.
  destruct arg; simpl; frame_steps. intros w Hw. by apply I_tick.
Qed.

Lemma stable_Item_init a : preserves I (Item_init E a).
Proof.
  unfold Item_init. cbv zeta. frame_steps.
  - apply stable_uuid_field.
  - apply stable_datetime_field.
  - repeat step_match; frame_steps.
Qed.

Lemma stable_Order_init a : preserves I (Order_init E a).
Proof.
  unfold Order_init. cbv zeta. frame_steps.
  - apply stable_uuid_field.
  - apply stable_datetime_field.
  - apply stable_datetime_field.
  - repeat step_match; frame_steps.
Qed.

Lemma stable_submit_order order_data : preserves I (submit_order E order_data).
Proof.
  unfold submit_order. apply preserves_bind.
  - apply preserves_for_each; intros i. apply stable_Item_init.
  - intros its. apply preserves_bind_fails.
    + apply stable_Order_init.
    + by apply Order_init_without_email.
Qed.

Lemma stable_get_order self oid : preserves I (get_order E self oid).
Proof.
  unfold get_order. frame_steps.
  - apply stable_require_db.
  - apply stable_doc_get.
  - step_match; frame_steps. apply preserves_quiet, _dict_to_order_quiet.
Qed.

Lemma stable_get_all_orders self : preserves I (get_all_orders E self).
Proof.
  unfold get_all_orders. frame_steps.
  - apply stable_require_db.
  - intros w Hw. by apply I_read.
  - apply preserves_quiet, _dict_to_order_quiet.
Qed.

Lemma stable_read_back doc_id : preserves I (read_back E doc_id).
Proof.
  unfold read_back. frame_steps; [apply stable_doc_get |].
  step_match; frame_steps. apply preserves_quiet, _dict_to_order_quiet.
Qed.

Lemma stable_verify_admin_key key : preserves I (verify_admin_key E key).
Proof.
  unfold verify_admin_key, api_key_header. frame_steps.
  - repeat step_match; frame_steps.
  - step_match; frame_steps.
Qed.

(** The endpoints that fetch an order first go no further than the
    not-found answer. *)
Lemma stable_fetch_first {A} oid (k : FirestoreAdapter -> option Order -> M A) :
  (forall self, preserves I (k self None)) ->
  preserves I
    (bind get_database_adapter
       (fun self => bind (get_order E self oid) (k self))).
Proof.
  intros Hk.
  apply preserves_bind; [apply stable_get_database_adapter | intros self].
  apply (preserves_bind_only I _ _ (fun a => a = None)).
  - apply stable_get_order.
  - intros w a. apply get_order_returns_None.
  - intros a ->. apply Hk.
Qed.

Lemma handle_stable_except_webhook r w :
  is_webhook r = false -> I w -> I (snd (handle E r w)).
Proof.
  assert (Hrespond : forall A success (to_body : A -> Body) (endpoint : M A),
    preserves I endpoint -> I w -> I (snd (respond success to_body endpoint w))).
  { intros A success to_body endpoint Hend Hw. specialize (Hend w Hw).
    unfold respond. destruct (endpoint w) as [[a|e] w']; [done |].
    by destruct e. }
  intros Hr Hw. destruct r; try discriminate; cbn [handle].
  - destruct (OrderCreate_valid body); [| done].
    apply Hrespond; [apply stable_submit_order | done].
  - apply Hrespond; [| done]. unfold get_order_by_id.
    apply stable_fetch_first. intros self. frame_steps.
  - apply Hrespond; [| done]. unfold with_dependency. frame_steps.
    + apply stable_verify_admin_key.
    + unfold list_all_orders. frame_steps;
        [apply stable_get_database_adapter | apply stable_get_all_orders].
  - apply Hrespond; [| done]. unfold with_dependency. frame_steps.
    + apply stable_verify_admin_key.
    + unfold update_order_processing_status.
      apply stable_fetch_first. intros self. frame_steps.
  - apply Hrespond; [| done]. unfold with_dependency. frame_steps.
    + apply stable_verify_admin_key.
    + unfold get_order_details. apply stable_fetch_first. intros self. frame_steps.
  - destruct (PaymentIntent_valid body); [| done].
    apply Hrespond; [| done]. unfold create_payment_intent.
    apply stable_fetch_first. intros self. frame_steps.
  - apply Hrespond; [frame_steps | done].
  - apply Hrespond; [frame_steps | done].
Qed.

(** The write of the webhook keeps the invariant too. *)
Hypothesis I_paid : forall doc_id now,
  preserves I (doc_update doc_id (payment_fields PaymentStatus.COMPLETED now)).

Lemma stable_stripe_webhook payload stripe_signature :
  preserves I (stripe_webhook E payload stripe_signature).
Proof.
  unfold stripe_webhook. repeat step_match; frame_steps.
  - apply preserves_try_except.
    + unfold Webhook_construct_event. step_match; frame_steps.
    + repeat constructor; intros ?; cbn [snd]; frame_steps.
  - repeat step_match; frame_steps.
    unfold mark_order_paid. apply preserves_try_except.
    + frame_steps.
      * unfold UUID_of_str. step_match; frame_steps.
      * apply stable_get_database_adapter.
      * unfold update_order_payment_status. frame_steps.
        -- apply stable_require_db.
        -- apply stable_doc_get.
        -- step_match; frame_steps.
           ++ intros w Hw. by apply I_tick.
           ++ apply I_paid.
           ++ apply stable_read_back.
      * step_match; frame_steps. apply stable_print.
    + repeat constructor. intros ?. cbn [snd]. apply stable_print.
Qed.

Lemma handle_stable r w : I w -> I (snd (handle E r w)).
Proof.
  intros Hw. destruct (is_webhook r) eqn:Hr.
  - destruct r; try discriminate. cbn [handle]. unfold respond.
    pose proof (stable_stripe_webhook payload stripe_signature w Hw) as H.
    destruct (stripe_webhook E payload stripe_signature w) as [[a|e] w'];
      [done |]. by destruct e.
  - by apply handle_stable_except_webhook.
Qed.

Lemma serve_stable rs w : I w -> I (snd (serve E rs w)).
Proof.
  revert w. induction rs as [|r rs IH]; intros w Hw; [done |].
  cbn [serve]. pose proof (handle_stable r w Hw) as H1.
  destruct (handle E r w) as [resp w1]. specialize (IH w1 H1).
  by destruct (serve E rs w1) as [resps w2].
Qed.

End Stable.

(** X16: no sequence of requests changes the adapter global: an
    application that is running keeps running. *)
Theorem requests_keep_the_adapter (rs : list Request) (w : World) :
  _db_adapter (snd (serve E rs w)) = _db_adapter w
  /\ (running w -> running (snd (serve E rs w))).
Proof.
  assert (Hsame : _db_adapter (snd (serve E rs w)) = _db_adapter w).
  { apply (serve_stable (fun w' => _db_adapter w' = _db_adapter w)); try done.
    intros doc_id now w' Hw'. unfold doc_update.
    by destruct (firestore w' !! doc_id). }
  split; [exact Hsame |].
  unfold running. by rewrite Hsame.
Qed.

(** X17: no sequence of requests calls the payment processor: the only
    call site follows a look-up that never returns an order. *)
Theorem processor_is_never_called (rs : list Request) (w : World) :
  stripe_calls (snd (serve E rs w)) = stripe_calls w.
Proof.
  apply (serve_stable (fun w' => stripe_calls w' = stripe_calls w)); try done.
  intros doc_id now w' Hw'. unfold doc_update.
  by destruct (firestore w' !! doc_id).
Qed.

(** X18: no sequence of requests creates or deletes a document: the set of
    stored order ids stays what it was. *)
Theorem stored_ids_never_change (rs : list Request) (w : World) :
  dom (firestore (snd (serve E rs w))) = dom (firestore w).
Proof.
  apply (serve_stable (fun w' => dom (firestore w') = dom (firestore w)));
    try done.
  intros doc_id now w' Hw'. unfold doc_update.
  destruct (firestore w' !! doc_id) as [d|] eqn:Hdoc; [| done].
  cbn [snd firestore db_access]. rewrite <- Hw'.
  apply dom_insert_lookup_L. by rewrite Hdoc.
Qed.

(** X19: only the processor's callback writes: every other request leaves
    all stored documents exactly as they were. *)
Theorem only_the_webhook_writes (r : Request) (w : World) :
  is_webhook r = false ->
  firestore (snd (handle E r w)) = firestore w.
Proof.
  intros Hr.
  by apply (handle_stable_except_webhook (fun w' => firestore w' = firestore w)).
Qed.

(** ** The items of a submitted order *)

Lemma for_each_Item_init_draws l : forall w,
  forallb ItemCreate_valid l = true ->
  exists w',
    for_each (fun item => Item_init E (ItemCreate_model_dump item)) l w
    = (Ok (imap (fun k => item_of_request E (draws w + k) (ticks w + k)) l), w')
    /\ draws w' = (draws w + length l)%nat
    /\ ticks w' = (ticks w + length l)%nat
    /\ firestore w' = firestore w.
Proof.
  induction l as [|i l IH]; intros w Hall.
  - exists w. cbn [for_each imap length]. by rewrite !Nat.add_0_r.
  - cbn [forallb] in Hall. apply andb_prop in Hall as [Hi Hl].
    cbn [for_each]. rewrite (bind_Ok _ _ _ _ _ (Item_init_model_dump E i w Hi)).
    destruct (IH (next_tick (next_draw w)) Hl) as (w' & Hrest & Hd & Ht & Hfs).
    rewrite (bind_Ok _ _ _ _ _ Hrest). exists w'.
    cbn [draws ticks firestore next_tick next_draw length] in *.
    split; [| repeat split; [lia | lia | done]].
    unfold ret. cbn [imap]. unfold item_of_request at 2.
    rewrite !Nat.add_0_r. do 3 f_equal.
    apply imap_ext. intros k x _. cbn. f_equal; lia.
Qed.

Lemma item_ids_of_request l : forall d t,
  item_id <$> imap (fun k => item_of_request E (d + k) (t + k)) l
  = uuid4 E <$> seq d (length l).
Proof.
  induction l as [|i l IH]; intros d t; [done |].
  cbn [imap length seq]. rewrite !fmap_cons. cbn [item_of_request item_id].
  rewrite Nat.add_0_r. f_equal.
  rewrite <- (IH (S d) (S t)). f_equal.
  apply imap_ext. intros k x _. cbn. f_equal; lia.
Qed.

(** X20: for a valid request, the first step of [submit_order] builds one
    item per submitted item, in order: the k-th item keeps the colours,
    size and comments of the request, its id is the k-th next draw of
    [uuid4] and its creation time the k-th next clock reading.  Nothing is
    stored, and the item ids are pairwise distinct whenever the draws
    are. *)
Theorem submitted_items_take_consecutive_draws
    (order_data : OrderCreate) (w : World) :
  OrderCreate_valid order_data = true ->
  let its :=
    imap (fun k => item_of_request E (draws w + k) (ticks w + k))
      (oc_items order_data) in
  exists w',
    for_each (fun item => Item_init E (ItemCreate_model_dump item))
      (oc_items order_data) w
    = (Ok its, w')
    /\ draws w' = (draws w + length (oc_items order_data))%nat
    /\ firestore w' = firestore w
    /\ ((forall j k, uuid4 E j = uuid4 E k -> j = k) -> NoDup (item_id <$> its)).
Proof.
  intros Hvalid its. subst its.
  unfold OrderCreate_valid in Hvalid.
  repeat (apply andb_prop in Hvalid as [Hvalid ?]).
  destruct (for_each_Item_init_draws (oc_items order_data) w)
    as (w' & Hrun & Hd & _ & Hfs); [done |].
  exists w'. split; [exact Hrun |]. split; [exact Hd |]. split; [exact Hfs |].
  intros Hinj. rewrite item_ids_of_request.
  apply NoDup_fmap_2; [exact Hinj | apply NoDup_seq].
Qed.

(** ** The order of a listing, once more *)

Lemma filter_insert_newest_first_same t o l :
  created_at o = t ->
  filter (fun x => created_at x = t) (insert_newest_first o l)
  = o :: filter (fun x => created_at x = t) l.
Proof.
  intros Ho. induction l as [|x l IH]; cbn [insert_newest_first].
  - by rewrite filter_cons_True.
  - destruct (created_at x <=? created_at o) eqn:Hcmp.
    + by rewrite (filter_cons_True _ o).
    + rewrite !(filter_cons_False _ x) by lia. exact IH.
Qed.

Lemma filter_insert_newest_first_other t o l :
  created_at o <> t ->
  filter (fun x => created_at x = t) (insert_newest_first o l)
  = filter (fun x => created_at x = t) l.
Proof.
  intros Ho. induction l as [|x l IH]; cbn [insert_newest_first].
  - by rewrite filter_cons_False.
  - destruct (created_at x <=? created_at o) eqn:Hcmp.
    + by rewrite (filter_cons_False _ o).
    + destruct (decide (created_at x = t)) as [Hx|Hx].
      * rewrite !(filter_cons_True _ x) by done. by rewrite IH.
      * rewrite !(filter_cons_False _ x) by done. exact IH.
Qed.

(** X21: the sort [get_all_orders] applies returns the same orders, newest
    first, and it is stable: the orders created at the same time come out
    in the order in which the store streamed them. *)
Theorem sort_newest_first_is_a_stable_sort (l : list Order) :
  Permutation l (sort_newest_first l)
  /\ Sorted newer_or_equal (sort_newest_first l)
  /\ forall t,
       filter (fun o => created_at o = t) (sort_newest_first l)
       = filter (fun o => created_at o = t) l.
Proof.
  split; [apply sort_newest_first_perm |].
  split; [apply sort_newest_first_sorted |].
  intros t. induction l as [|o l IH]; [done |].
  cbn [sort_newest_first foldr].
  destruct (decide (created_at o = t)) as [Ho|Ho].
  - rewrite (filter_insert_newest_first_same t o _ Ho).
    rewrite (filter_cons_True _ o) by done. f_equal. exact IH.
  - rewrite (filter_insert_newest_first_other t o _ Ho).
    rewrite (filter_cons_False _ o) by done. exact IH.
Qed.

(** ** The allowed origins *)

Lemma split_comma_length s : length (split_comma s) = S (commas s).
Proof.
  induction s as [|c s IH]; [done |]. cbn [split_comma commas].
  destruct (Ascii.eqb c ","); cbn [length]; [by rewrite IH |].
  destruct (split_comma s); [discriminate | done].
Qed.

Lemma split_comma_fields s : Forall (fun field => commas field = O) (split_comma s).
Proof.
  induction s as [|c s IH]; [by repeat constructor |]. cbn [split_comma].
  destruct (Ascii.eqb c ",") eqn:Hc; [by constructor |].
  destruct (split_comma s) as [|field fields]; [repeat constructor |].
  - cbn [commas]. by rewrite Hc.
  - inversion IH as [|? ? Hfield Hfields]; subst.
    constructor; [| done]. cbn [commas]. by rewrite Hc.
Qed.

(** The commas of a list of characters. *)
Lemma commas_string_of_list l :
  commas (string_of_list_ascii l)
  = length (filter (fun c => Ascii.eqb c "," = true) l).
Proof.
  induction l as [|c l IH]; [done |]. cbn [string_of_list_ascii commas].
  destruct (Ascii.eqb c ",") eqn:Hc.
  - rewrite filter_cons_True by done. cbn [length]. by rewrite IH.
  - rewrite filter_cons_False by (by rewrite Hc). exact IH.
Qed.

Lemma drop_spaces_suffix l : exists blanks, l = (blanks ++ drop_spaces l)%list.
Proof.
  induction l as [|c l [blanks IH]]; [by exists [] |]. cbn [drop_spaces].
  destruct (is_space c); [| by exists []].
  exists (c :: blanks). cbn. by rewrite <- IH.
Qed.

Lemma drop_spaces_head l :
  match drop_spaces l with
  | c :: _ => is_space c = false
  | [] => True
  end.
Proof.
  induction l as [|c l IH]; [done |]. cbn [drop_spaces].
  by destruct (is_space c) eqn:Hc.
Qed.

Lemma strip_no_comma s : commas s = O -> commas (strip s) = O.
Proof.
  rewrite <- (string_of_list_ascii_of_string s) at 1.
  unfold strip. rewrite !commas_string_of_list.
  set (l := list_ascii_of_string s).
  destruct (drop_spaces_suffix l) as [b1 H1].
  destruct (drop_spaces_suffix (rev (drop_spaces l))) as [b2 H2].
  intros Hl. apply length_zero_iff_nil in Hl. apply length_zero_iff_nil.
  rewrite H1, filter_app in Hl. apply app_eq_nil in Hl as [_ Hl].
  rewrite <- (rev_involutive (drop_spaces l)), H2 in Hl.
  rewrite rev_app_distr, filter_app in Hl. by apply app_eq_nil in Hl as [Hl _].
Qed.

Lemma strip_ends s :
  begins_with_space (strip s) = false /\ ends_with_space (strip s) = false.
Proof.
  unfold begins_with_space, ends_with_space, strip.
  rewrite !list_ascii_of_string_of_list_ascii.
  set (l1 := drop_spaces (list_ascii_of_string s)).
  pose proof (drop_spaces_head (list_ascii_of_string s)) as Hhead1.
  fold l1 in Hhead1.
  pose proof (drop_spaces_head (rev l1)) as Hhead2.
  destruct (drop_spaces_suffix (rev l1)) as [blanks Hsuffix].
  set (l2 := drop_spaces (rev l1)) in *.
  split.
  - assert (Hl1 : l1 = (rev l2 ++ rev blanks)%list).
    { rewrite <- (rev_involutive l1), Hsuffix. apply rev_app_distr. }
    destruct (rev l2) as [|c rest] eqn:Hrev; [done |].
    rewrite Hl1 in Hhead1. exact Hhead1.
  - rewrite rev_involutive. by destruct l2.
Qed.

(** X22: [cors_origins_list] prints the fields it found and returns one
    origin per comma-separated field of [allowed_origins], so at least one,
    also for the empty setting; no origin contains a comma, and none begins
    or ends with a blank. *)
Theorem cors_origins_list_fields
    (repr : list string -> string) (allowed_origins : string) (w : World) :
  let result := cors_origins_list repr allowed_origins w in
  exists origins,
    fst result = Ok origins
    /\ length origins = S (commas allowed_origins)
    /\ Forall (fun origin =>
                 commas origin = O
                 /\ begins_with_space origin = false
                 /\ ends_with_space origin = false) origins
    /\ stdout (snd result)
       = (stdout w
          ++ [("Allowed origins: " ++ repr (split_comma allowed_origins))%string])%list.
Proof.
  exists (strip <$> split_comma allowed_origins).
  split; [done |]. split; [by rewrite length_fmap, split_comma_length |].
  split; [| done].
  apply Forall_fmap. eapply Forall_impl; [apply split_comma_fields |].
  intros field Hfield. cbn. split; [by apply strip_no_comma | apply strip_ends].
Qed.

End Coverage.

(** * The further properties on explicit inputs *)

Lemma adapter_methods_need_initialize_witness :
  let E := Fixture.env Fixture.ticking in
  let self := FirestoreAdapter_new (Some "blumelein") in
  let w := Fixture.world (Fixture.store_of Fixture.new_order) in
  db self = None
  /\ (forall order, create_order E self order w = (Raise not_ready, w))
  /\ (forall oid, get_order E self oid w = (Raise not_ready, w))
  /\ get_all_orders E self w = (Raise not_ready, w)
  /\ (forall oid status,
        update_order_payment_status E self oid status w = (Raise not_ready, w))
  /\ (forall oid status,
        update_order_status E self oid status w = (Raise not_ready, w)).
Proof.
  cbv zeta. split; [reflexivity |].
  exact (adapter_methods_need_initialize (Fixture.env Fixture.ticking)
           (FirestoreAdapter_new (Some "blumelein"))
           (Fixture.world (Fixture.store_of Fixture.new_order)) eq_refl).
Defined.

(** Storing the new order over the paid one: the stored payment status is
    Incomplete again. *)
Lemma create_order_replaces_document_witness :
  let E := Fixture.env Fixture.ticking in
  let w := Fixture.world (Fixture.store_of Fixture.paid_order) in
  let result := create_order E Fixture.ready Fixture.new_order w in
  let doc_id := uuid_str E 7%N in
  db Fixture.ready = Some Fixture.client
  /\ fst result = Ok Fixture.new_order
  /\ firestore (snd result) !! doc_id = Some (_order_to_dict E Fixture.new_order)
  /\ (forall other, other <> doc_id ->
        firestore (snd result) !! other = firestore w !! other)
  /\ db_trace (snd result) = (db_trace w ++ [DocSet doc_id])%list.
Proof.
  cbv zeta. split; [reflexivity |].
  exact (create_order_replaces_document (Fixture.env Fixture.ticking)
           Fixture.ready Fixture.client Fixture.new_order
           (Fixture.world (Fixture.store_of Fixture.paid_order)) eq_refl).
Defined.

Lemma get_order_by_id_unknown_witness :
  let E := Fixture.env Fixture.ticking in
  let w := Fixture.world (Fixture.store_of Fixture.new_order) in
  running w
  /\ firestore w !! uuid_str E 9%N = None
  /\ handle E (GET_orders_id 9%N) w
     = ({| response_status := 404;
           response_body :=
             DetailBody
               "Order with ID 00000000-0000-0000-0000-000000000009 not found" |},
        after_read (DocGet "00000000-0000-0000-0000-000000000009") w).
Proof.
  cbv zeta. split; [apply Fixture_world_running |]. split; [reflexivity |].
  exact (get_order_by_id_unknown (Fixture.env Fixture.ticking) 9%N
           (Fixture.world (Fixture.store_of Fixture.new_order))
           (Fixture_world_running _) eq_refl).
Defined.

Lemma endpoints_need_initialize_database_witness :
  let E := Fixture.env Fixture.ticking in
  let w := Fixture.cold in
  _db_adapter w = None
  /\ (forall oid, get_order_by_id E oid w = (Raise not_initialized, w))
  /\ list_all_orders E w = (Raise not_initialized, w)
  /\ (forall oid, get_order_details E oid w = (Raise not_initialized, w))
  /\ (forall oid body,
        update_order_processing_status E oid body w = (Raise not_initialized, w))
  /\ (forall body, create_payment_intent E body w = (Raise not_initialized, w))
  /\ (forall oid,
        handle E (GET_orders_id oid) w
        = ({| response_status := 500;
              response_body := InternalServerErrorBody |}, w)).
Proof.
  cbv zeta. split; [reflexivity |].
  exact (endpoints_need_initialize_database (Fixture.env Fixture.ticking)
           Fixture.cold eq_refl).
Defined.

Lemma admin_key_opens_admin_view_witness :
  let E := Fixture.env Fixture.ticking in
  let w := Fixture.world (Fixture.store_of Fixture.new_order) in
  is_empty "admin-secret" = false
  /\ "admin-secret" = admin_api_key (settings E)
  /\ verify_admin_key E (Some "admin-secret") w = (Ok "admin-secret", w)
  /\ handle E (GET_manage_orders_id (Some "admin-secret") 9%N) w
     = handle E (GET_orders_id 9%N) w.
Proof.
  cbv zeta. split; [reflexivity |]. split; [reflexivity |].
  exact (admin_key_opens_admin_view (Fixture.env Fixture.ticking)
           "admin-secret" 9%N
           (Fixture.world (Fixture.store_of Fixture.new_order))
           eq_refl eq_refl).
Defined.

Lemma initialize_database_unknown_type_witness :
  let E := with_settings memory_config (Fixture.env Fixture.ticking) in
  database_type (settings E) <> "firestore"
  /\ initialize_database E Fixture.cold
     = (Raise (ValueError "Unknown database type: memory"), Fixture.cold).
Proof.
  cbv zeta.
  assert (Htype : database_type
            (settings (with_settings memory_config (Fixture.env Fixture.ticking)))
          <> "firestore") by discriminate.
  split; [exact Htype |].
  exact (initialize_database_unknown_type
           (with_settings memory_config (Fixture.env Fixture.ticking))
           Fixture.cold Htype).
Defined.


Lemma stored_items_round_trip_witness :
  let E := Fixture.env Fixture.ticking in
  let w := Fixture.world ∅ in
  ids_round_trip E Fixture.new_order = true
  /\ forallb Item_ok (items Fixture.new_order) = true
  /\ bind (getitem (_order_to_dict E Fixture.new_order) "items")
       (fun v_items => bind (iterate v_items) (for_each (item_of_dict E))) w
     = (Ok (items Fixture.new_order), w).
Proof.
  cbv zeta. split; [reflexivity |]. split; [reflexivity |].
  exact (stored_items_round_trip (Fixture.env Fixture.ticking)
           Fixture.new_order (Fixture.world ∅) eq_refl eq_refl).
Defined.

(** The bouquet of the sample order, as an item. *)
Lemma item_of_dict_missing_key_witness :
  let E := Fixture.env Fixture.ticking in
  let w := Fixture.world ∅ in
  let item :=
    {| main_colours := ["red"; "pink"]; size := BouquetSize.MEDIUM;
       comments := Some "Please include roses"; item_id := 8%N;
       item_created_at := 1000 |} in
  round_trips E (item_id item) = true
  /\ Item_ok item = true
  /\ item_of_dict E (VDict (delete "comments" (item_doc E item))) w
     = (Ok (without_comments item), w)
  /\ Forall
       (fun key =>
          item_of_dict E (VDict (delete key (item_doc E item))) w
          = (Raise (KeyError key), w))
       ["item_id"; "main_colours"; "size"; "created_at"].
Proof.
  cbv zeta. split; [reflexivity |]. split; [reflexivity |].
  exact (item_of_dict_missing_key (Fixture.env Fixture.ticking)
           {| main_colours := ["red"; "pink"]; size := BouquetSize.MEDIUM;
              comments := Some "Please include roses"; item_id := 8%N;
              item_created_at := 1000 |}
           (Fixture.world ∅) eq_refl eq_refl).
Defined.

(** Setting the paid order In Progress: the payment status stays
    Completed. *)
Lemma update_order_status_frame_witness :
  let E := Fixture.env Fixture.ticking in
  let w := Fixture.world (Fixture.store_of Fixture.paid_order) in
  let d := _order_to_dict E Fixture.paid_order in
  let result :=
    update_order_status E Fixture.ready 7%N OrderStatus.IN_PROGRESS w in
  db Fixture.ready = Some Fixture.client
  /\ (exists e, fst result = Raise e /\ internal e)
  /\ exists d',
       firestore (snd result) !! uuid_str E 7%N = Some d'
       /\ d' !! "order_status" = Some (VStr "In Progress")
       /\ d' !! "updated_at" = Some (VTime 2000)
       /\ d' !! "payment_status" = d !! "payment_status"
       /\ (forall key, key <> "order_status" -> key <> "updated_at" ->
             d' !! key = d !! key)
       /\ (forall other, other <> uuid_str E 7%N ->
             firestore (snd result) !! other = firestore w !! other).
Proof.
  cbv zeta. split; [reflexivity |].
  exact (update_order_status_frame (Fixture.env Fixture.ticking)
           Fixture.ready Fixture.client 7%N OrderStatus.IN_PROGRESS
           (Fixture.world (Fixture.store_of Fixture.paid_order)) eq_refl).
Defined.

(** The confirmation of the stored, unpaid order. *)
Lemma stripe_webhook_marks_stored_order_paid_witness :
  let E := Fixture.env Fixture.ticking in
  let w := Fixture.world (Fixture.store_of Fixture.new_order) in
  let payload := "00000000-0000-0000-0000-000000000007" in
  let sig := "t=1,v1=good" in
  let event :=
    {| event_type := "payment_intent.succeeded";
       event_metadata := Some {[ "order_id" := payload ]} |} in
  let result := handle E (POST_payments_webhook (Some sig) payload) w in
  (is_empty sig = false
   /\ stripe_Webhook_construct_event E payload sig
        (stripe_webhook_secret (settings E)) = EventOk event
   /\ metadata_order_id event = Some payload
   /\ UUID_parse E payload = Some (order_id Fixture.new_order)
   /\ running w
   /\ firestore w !! uuid_str E (order_id Fixture.new_order)
      = Some (_order_to_dict E Fixture.new_order)
   /\ ids_round_trip E Fixture.new_order = true)
  /\ fst result
     = {| response_status := 200; response_body := StatusBody "success" |}
  /\ firestore (snd result)
     = <[uuid_str E 7%N :=
           _order_to_dict E
             (with_payment_status PaymentStatus.COMPLETED 2000
                Fixture.new_order)]> (firestore w)
  /\ stdout (snd result)
     = (stdout w
        ++ [("Warning: Invalid order_id in payment metadata: "
             ++ payload)%string])%list.
Proof.
  cbv zeta.
  split; [repeat split; try reflexivity; apply Fixture_world_running |].
  exact (stripe_webhook_marks_stored_order_paid (Fixture.env Fixture.ticking)
           "00000000-0000-0000-0000-000000000007" "t=1,v1=good"
           "00000000-0000-0000-0000-000000000007" _ Fixture.new_order
           (Fixture.world (Fixture.store_of Fixture.new_order))
           eq_refl eq_refl eq_refl eq_refl eq_refl eq_refl
           (Fixture_world_running _) eq_refl eq_refl eq_refl).
Defined.

(** A failed payment for the stored order. *)
Lemma stripe_webhook_ignores_other_events_witness :
  let E := with_verifier failed_payment (Fixture.env Fixture.ticking) in
  let w := Fixture.world (Fixture.store_of Fixture.new_order) in
  let payload := "00000000-0000-0000-0000-000000000007" in
  (is_empty "t=1,v1=good" = false
   /\ event_type
        {| event_type := "payment_intent.payment_failed";
           event_metadata := Some {[ "order_id" := payload ]} |}
      <> "payment_intent.succeeded")
  /\ handle E (POST_payments_webhook (Some "t=1,v1=good") payload) w
     = ({| response_status := 200; response_body := StatusBody "success" |}, w).
Proof.
  cbv zeta.
  assert (Htype : event_type
            {| event_type := "payment_intent.payment_failed";
               event_metadata :=
                 Some {[ "order_id" := "00000000-0000-0000-0000-000000000007" ]} |}
          <> "payment_intent.succeeded") by discriminate.
  split; [by split |].
  exact (stripe_webhook_ignores_other_events
           (with_verifier failed_payment (Fixture.env Fixture.ticking))
           "00000000-0000-0000-0000-000000000007" "t=1,v1=good" _
           (Fixture.world (Fixture.store_of Fixture.new_order))
           eq_refl eq_refl Htype).
Defined.


(** The admin update of the stored order to Completed writes nothing. *)
Lemma only_the_webhook_writes_witness :
  let E := Fixture.env Fixture.ticking in
  let w := Fixture.world (Fixture.store_of Fixture.new_order) in
  let r :=
    PATCH_manage_orders_id_status (Some "admin-secret") 7%N
      {| su_order_status := OrderStatus.COMPLETED |} in
  is_webhook r = false
  /\ firestore (snd (handle E r w)) = firestore w.
Proof.
  cbv zeta. split; [reflexivity |].
  exact (only_the_webhook_writes (Fixture.env Fixture.ticking)
           (PATCH_manage_orders_id_status (Some "admin-secret") 7%N
              {| su_order_status := OrderStatus.COMPLETED |})
           (Fixture.world (Fixture.store_of Fixture.new_order)) eq_refl).
Defined.

Lemma submitted_items_take_consecutive_draws_witness :
  let E := Fixture.env Fixture.ticking in
  let w := Fixture.world ∅ in
  let its :=
    imap (fun k => item_of_request E (draws w + k) (ticks w + k))
      (oc_items two_bouquets) in
  OrderCreate_valid two_bouquets = true
  /\ exists w',
       for_each (fun item => Item_init E (ItemCreate_model_dump item))
         (oc_items two_bouquets) w
       = (Ok its, w')
       /\ draws w' = (draws w + length (oc_items two_bouquets))%nat
       /\ firestore w' = firestore w
       /\ ((forall j k, uuid4 E j = uuid4 E k -> j = k) ->
           NoDup (item_id <$> its)).
Proof.
  cbv zeta. split; [reflexivity |].
  exact (submitted_items_take_consecutive_draws (Fixture.env Fixture.ticking)
           two_bouquets (Fixture.world ∅) eq_refl).
Defined.

(** The stored order, with its items field lost. *)
Lemma stripe_webhook_fails_after_the_write_witness :
  let E := Fixture.env Fixture.ticking in
  let d := delete "items" (_order_to_dict E Fixture.new_order) in
  let w := Fixture.world {[ uuid_str E 7%N := d ]} in
  let payload := "00000000-0000-0000-0000-000000000007" in
  let result := handle E (POST_payments_webhook (Some "t=1,v1=good") payload) w in
  let d' := payment_fields PaymentStatus.COMPLETED 2000 ∪ d in
  (UUID_parse E payload = Some 7%N
   /\ running w
   /\ firestore w !! uuid_str E 7%N = Some d
   /\ d !! "items" = None)
  /\ fst result
     = {| response_status := 500; response_body := InternalServerErrorBody |}
  /\ firestore (snd result) = <[uuid_str E 7%N := d']> (firestore w)
  /\ d' !! "payment_status" = Some completed_token.
Proof.
  cbv zeta.
  split; [repeat split; try reflexivity; apply Fixture_world_running |].
  exact (stripe_webhook_fails_after_the_write (Fixture.env Fixture.ticking)
           "00000000-0000-0000-0000-000000000007" "t=1,v1=good"
           "00000000-0000-0000-0000-000000000007" _ 7%N
           (delete "items"
              (_order_to_dict (Fixture.env Fixture.ticking) Fixture.new_order))
           (Fixture.world
              {[ uuid_str (Fixture.env Fixture.ticking) 7%N :=
                   delete "items"
                     (_order_to_dict (Fixture.env Fixture.ticking)
                        Fixture.new_order) ]})
           eq_refl eq_refl eq_refl eq_refl eq_refl eq_refl
           (Fixture_world_running _) eq_refl eq_refl).
Defined.
